(** * Chp11-Ex6: a nested exception class inside a user defined class

    A shallow embedding of [Chapter11/Chp11-Ex6.cpp]: the [Person] and
    [Student] classes, the static counter [Student::numStudents], the
    exceptions thrown by [Student::Validate] and [Student::Graduate], the
    handlers of [main] and the terminate handler [AppSpecificTerminate].

    - a C++ [float] or [double] is a [spec_float] (IEEE 754 binary32 and
      binary64 of the Standard Library's [SpecFloat]);
    - an [int] is a [Z] in the range of 32 bits; signed overflow is undefined
      in C++, and the model is undefined there too;
    - objects live in a store indexed by addresses; a member function takes
      the address of [this];
    - a computation threads the program state and ends by returning, by
      throwing, by calling [exit], or is undefined. *)

From Stdlib Require Import ZArith Ascii Floats.SpecFloat.
From stdpp Require Import gmap strings list fin_maps pretty.

Local Open Scope Z_scope.

(** ** Arithmetic types *)

Module Float.

(** [float]: binary32. *)
Definition prec32 : Z := 24.
Definition emax32 : Z := 128.
(** [double]: binary64. *)
Definition prec64 : Z := 53.
Definition emax64 : Z := 1024.

Definition is_float (f : spec_float) : bool := valid_binary prec32 emax32 f.
Definition is_double (f : spec_float) : bool := valid_binary prec64 emax64 f.

(** A decimal literal [n/d] of type [double], rounded to nearest even. *)
Definition double_of_Z (n : Z) : spec_float :=
  binary_normalize prec64 emax64 n 0 false.
Definition double_literal (n d : Z) : spec_float :=
  SFdiv prec64 emax64 (double_of_Z n) (double_of_Z d).

(** The floating-point promotion [float] to [double] (exact). *)
Definition float_to_double (f : spec_float) : spec_float :=
  match f with
  | S754_finite s m e => binary_round prec64 emax64 s m e
  | _ => f
  end.

(** The conversion [double] to [float] (round to nearest even). *)
Definition double_to_float (d : spec_float) : spec_float :=
  match d with
  | S754_finite s m e => binary_round prec32 emax32 s m e
  | _ => d
  end.

(** [<] and [>=] on [double]; both are false on a NaN. *)
Definition lt (x y : spec_float) : bool := SFltb x y.
Definition ge (x y : spec_float) : bool := SFleb y x.

End Float.


Module Int.

(** [int]: 32 bits. *)
Definition INT_MIN : Z := - 2 ^ 31.
Definition INT_MAX : Z := 2 ^ 31 - 1.

Definition in_range (n : Z) : bool := (INT_MIN <=? n) && (n <=? INT_MAX).

(** The result of a signed operation: undefined when it overflows. *)
Definition checked (n : Z) : option Z := if in_range n then Some n else None.
Definition add (a b : Z) : option Z := checked (a + b).
Definition sub (a b : Z) : option Z := checked (a - b).

(** [std::to_string(int)]: the decimal digits, after a [-] when negative. *)
Definition to_string (n : Z) : string := pretty n.

End Int.

(** ** The data model *)

(** [class Person]: four private data members. *)
Record Person := mkPerson {
  firstName : string;
  lastName : string;
  middleInitial : ascii;
  title : string
}.

(** [class Student::StudentException]: the nested exception class. *)
Record StudentException := mkStudentException { number : Z }.

(** [class Student : public Person]: the base sub-object and the data
    members of the derived class. [numStudents] is static: it is part of the
    program state, not of the object. *)
Record Student := mkStudent {
  person : Person;
  gpa : spec_float;
  currentCourse : string;
  studentId : string
}.

(** ** Exceptions *)

(** The types an exception object can have. [main] names four of them; any
    other type is known by its name. [TOther] stands for a type unrelated to
    those four: not one of them under another name, and with no conversion to
    the type of a handler (so not a [char *] or a [nullptr], which a handler
    for [const char *] takes, and not a class derived from
    [StudentException]). The program throws no such object. *)
Inductive cpp_type :=
  | TFloat
  | TInt
  | TConstCharPtr
  | TStudentException
  | TOther (name : string).

Global Instance cpp_type_eq_dec : EqDecision cpp_type.
Proof. solve_decision. Defined.

(** An exception object in flight, tagged by its type. *)
Inductive exn :=
  | EFloat (f : spec_float)
  | EInt (n : Z)
  | ECStr (s : string)
  | EStudentException (e : StudentException)
  | EOther (name : string).

Definition type_of (e : exn) : cpp_type :=
  match e with
  | EFloat _ => TFloat
  | EInt _ => TInt
  | ECStr _ => TConstCharPtr
  | EStudentException _ => TStudentException
  | EOther name => TOther name
  end.

(** ** The program state *)

Definition addr := nat.

(** What has been inserted into [cout], in order. *)
Inductive out_item :=
  | OStr (s : string)
  | OChar (c : ascii)
  | OFloat (f : spec_float)
  | OInt (n : Z)
  | OSetprecision (n : Z)
  | OEndl.

(** The function registered with [set_terminate]. *)
Inductive terminate_handler :=
  | DefaultTerminate
  | UseAppSpecificTerminate.

Record world := mkWorld {
  numStudents : Z;                      (* static int Student::numStudents *)
  objects : gmap addr Student;          (* the Student objects alive *)
  freestore : list StudentException;    (* allocated with new, never deleted *)
  cout : list out_item;
  terminate : terminate_handler
}.

(** Before [main]: [int Student::numStudents = 0]. *)
Definition initial_world : world :=
  mkWorld 0 ∅ [] [] DefaultTerminate.

(** ** Computations *)

Inductive result (A : Type) :=
  | Ret (a : A) (w : world)
  | Throw (e : exn) (w : world)
  | Exit (status : Z) (w : world)
  | Undef.
Arguments Ret {A} a w.
Arguments Throw {A} e w.
Arguments Exit {A} status w.
Arguments Undef {A}.

Definition M (A : Type) : Type := world → result A.

Global Instance M_ret : MRet M := λ A a w, Ret a w.

Global Instance M_bind : MBind M := λ A B f m w,
  match m w with
  | Ret a w' => f a w'
  | Throw e w' => Throw e w'
  | Exit n w' => Exit n w'
  | Undef => Undef
  end.

Definition throw {A} (e : exn) : M A := λ w, Throw e w.
Definition exit {A} (status : Z) : M A := λ w, Exit status w.
Definition undef {A} : M A := λ _, Undef.

(** The value of an [int] expression; undefined on overflow. *)
Definition int_value (o : option Z) : M Z :=
  match o with Some n => mret n | None => undef end.

Definition get_numStudents : M Z := λ w, Ret (numStudents w) w.

Definition set_numStudents (n : Z) : M unit := λ w,
  Ret tt (mkWorld n (objects w) (freestore w) (cout w) (terminate w)).

(** [cout << x] *)
Definition put (x : out_item) : M unit := λ w,
  Ret tt (mkWorld (numStudents w) (objects w) (freestore w) (cout w ++ [x]) (terminate w)).

(** [*this]; undefined when no object lives at the address. *)
Definition this (a : addr) : M Student := λ w,
  match objects w !! a with
  | Some s => Ret s w
  | None => Undef
  end.

(** Assignment to the data members of a live object. *)
Definition update (a : addr) (s : Student) : M unit := λ w,
  match objects w !! a with
  | Some _ => Ret tt (mkWorld (numStudents w) (<[a := s]> (objects w)) (freestore w) (cout w) (terminate w))
  | None => Undef
  end.

(** Storage for a new object, at an address where none lives. *)
Definition alloc (s : Student) : M addr := λ w,
  let a := fresh (dom (objects w)) in
  Ret a (mkWorld (numStudents w) (<[a := s]> (objects w)) (freestore w) (cout w) (terminate w)).

(** The end of the lifetime of the object. *)
Definition release (a : addr) : M unit := λ w,
  Ret tt (mkWorld (numStudents w) (delete a (objects w)) (freestore w) (cout w) (terminate w)).

(** [new StudentException(num)]: the object stays on the free store. *)
Definition new_StudentException (num : Z) : M StudentException := λ w,
  let e := mkStudentException num in
  Ret e (mkWorld (numStudents w) (objects w) (freestore w ++ [e]) (cout w) (terminate w)).

(** [set_terminate(f)] *)
Definition set_terminate (h : terminate_handler) : M unit := λ w,
  Ret tt (mkWorld (numStudents w) (objects w) (freestore w) (cout w) h).

(** ** class Person *)

(** [Person() = default], with the in-class initializer of [middleInitial]. *)
Definition Person_default : Person := mkPerson EmptyString EmptyString "000"%char EmptyString.

Definition Person_Person (fn ln : string) (mi : ascii) (t : string) : Person :=
  mkPerson fn ln mi t.

(** The implicit copy constructor. *)
Definition Person_copy (p : Person) : Person :=
  mkPerson (firstName p) (lastName p) (middleInitial p) (title p).

Definition Person_ModifyTitle (newTitle : string) (a : addr) : M unit :=
  s ← this a;
  let p := person s in
  update a (mkStudent (mkPerson (firstName p) (lastName p) (middleInitial p) newTitle)
                      (gpa s) (currentCourse s) (studentId s)).

Definition Person_GetFirstName (a : addr) : M string := s ← this a; mret (firstName (person s)).
Definition Person_GetLastName (a : addr) : M string := s ← this a; mret (lastName (person s)).
Definition Person_GetTitle (a : addr) : M string := s ← this a; mret (title (person s)).
Definition Person_GetMiddleInitial (a : addr) : M ascii := s ← this a; mret (middleInitial (person s)).

Definition Person_Print (a : addr) : M unit :=
  s ← this a;
  let p := person s in
  put (OStr (title p));; put (OStr " ");; put (OStr (firstName p));; put (OStr " ");;
  put (OChar (middleInitial p));; put (OStr ". ");; put (OStr (lastName p));; put OEndl.

Definition Person_IsA (a : addr) : M unit :=
  _ ← this a; put (OStr "Person");; put OEndl.

Definition Person_Greeting (msg : string) (a : addr) : M unit :=
  _ ← this a; put (OStr msg);; put OEndl.

(** ** class Student *)

(** The literals of the source. *)
Definition lit_0_0 : spec_float := Float.double_literal 0 10.   (* 0.0 *)
Definition lit_2_0 : spec_float := Float.double_literal 20 10.  (* 2.0 *)
Definition lit_3_1 : spec_float := Float.double_literal 31 10.  (* 3.1 *)

(** [numStudents++] *)
Definition incr_numStudents : M unit :=
  n ← get_numStudents; n' ← int_value (Int.add n 1); set_numStudents n'.

(** [numStudents--] *)
Definition decr_numStudents : M unit :=
  n ← get_numStudents; n' ← int_value (Int.sub n 1); set_numStudents n'.

(** [Student::Student()]: the member initializer list reads [numStudents],
    then the body increments it. *)
Definition Student_Student : M addr :=
  n ← get_numStudents;
  k ← int_value (Int.add n 100);
  a ← alloc (mkStudent Person_default (Float.double_to_float lit_0_0) EmptyString
                       (Int.to_string k +:+ "Id"));
  incr_numStudents;;
  mret a.

(** [Student::Student(fn, ln, mi, t, avg, course, id)] *)
Definition Student_Student_alt (fn ln : string) (mi : ascii) (t : string)
    (avg : spec_float) (course id : string) : M addr :=
  a ← alloc (mkStudent (Person_Person fn ln mi t) avg course id);
  incr_numStudents;;
  mret a.

(** [Student::Student(const Student &s)] *)
Definition Student_Student_copy (src : addr) : M addr :=
  s ← this src;
  a ← alloc (mkStudent (Person_copy (person s)) (gpa s) (currentCourse s) (studentId s));
  incr_numStudents;;
  mret a.

(** [Student::~Student()], then the storage is given back. *)
Definition Student_destroy (a : addr) : M unit :=
  _ ← this a;
  decr_numStudents;;
  release a.

Definition Student_EarnPhD (a : addr) : M unit := Person_ModifyTitle "Dr." a.

Definition Student_GetGpa (a : addr) : M spec_float := s ← this a; mret (gpa s).
Definition Student_GetCurrentCourse (a : addr) : M string := s ← this a; mret (currentCourse s).
Definition Student_GetStudentId (a : addr) : M string := s ← this a; mret (studentId s).

Definition Student_SetCurrentCourse (c : string) (a : addr) : M unit :=
  s ← this a;
  update a (mkStudent (person s) (gpa s) c (studentId s)).

Definition Student_GetNumberStudents : M Z := get_numStudents.

Definition Student_Print (a : addr) : M unit :=
  t ← Person_GetTitle a; put (OStr t);; put (OStr " ");;
  fn ← Person_GetFirstName a; put (OStr fn);; put (OStr " ");;
  mi ← Person_GetMiddleInitial a; put (OChar mi);; put (OStr ". ");;
  ln ← Person_GetLastName a; put (OStr ln);;
  s ← this a;
  put (OStr " with id: ");; put (OStr (studentId s));; put (OStr " GPA: ");;
  put (OSetprecision 3);; put (OStr " ");; put (OFloat (gpa s));;
  put (OStr " Course: ");; put (OStr (currentCourse s));; put OEndl.

Definition Student_IsA (a : addr) : M unit :=
  _ ← this a; put (OStr "Student");; put OEndl.

Definition Student_Validate (a : addr) : M unit :=
  _ ← this a;
  throw (ECStr "Student does not meet prerequisites").

Definition Student_TakePrerequisites (a : addr) : M bool :=
  _ ← this a;
  mret false.

(** [gpa < 2.0] compares the promoted [gpa] with the [double] 2.0. *)
Definition Student_Graduate (a : addr) : M unit :=
  s ← this a;
  if Float.lt (Float.float_to_double (gpa s)) lit_2_0
  then throw (EFloat (gpa s))
  else e ← new_StudentException 5; throw (EStudentException e).

(** ** Handlers *)

Inductive catch_decl :=
  | CatchType (t : cpp_type)     (* catch (T err) *)
  | CatchAll.                    (* catch (...) *)

Record clause := mkClause {
  decl : catch_decl;
  handler : exn → M unit
}.

(** A handler is a match for an exception object of its own type; [...]
    matches any. None of the types here is a class with a base, or a pointer
    that converts to another: the conversions a handler allows besides are
    outside the model, see [TOther]. *)
Definition accepts (e : exn) (c : clause) : Prop :=
  match decl c with
  | CatchType t => t = type_of e
  | CatchAll => True
  end.

Global Instance accepts_dec e c : Decision (accepts e c).
Proof. unfold accepts. destruct (decl c); apply _. Defined.

(** [try { body } catch ...]: the handlers are tried in order of appearance;
    with no match the exception leaves the block. *)
Definition try_catch (body : M unit) (clauses : list clause) : M unit := λ w,
  match body w with
  | Throw e w' =>
      match list_find (accepts e) clauses with
      | Some (_, c) => handler c e w'
      | None => Throw e w'
      end
  | r => r
  end.

(** The handlers of [main], in the order of the source. *)
Definition catch_float : clause :=
  mkClause (CatchType TFloat) (λ e,
    match e with
    | EFloat err => put (OStr "Too low gpa: ");; put (OFloat err);; put OEndl;; exit 1
    | _ => undef
    end).

Definition catch_int : clause :=
  mkClause (CatchType TInt) (λ e,
    match e with
    | EInt err => put (OStr "Missing ");; put (OInt err);; put (OStr " credits");; put OEndl;; exit 2
    | _ => undef
    end).

Definition catch_const_char_ptr : clause :=
  mkClause (CatchType TConstCharPtr) (λ e,
    match e with
    | ECStr err => put (OStr err);; put OEndl;; exit 4
    | _ => undef
    end).

Definition catch_StudentException : clause :=
  mkClause (CatchType TStudentException) (λ e,
    match e with
    | EStudentException err => put (OStr "Error: ");; put (OInt (number err));; put OEndl;; exit 5
    | _ => undef
    end).

Definition catch_all : clause :=
  mkClause CatchAll (λ _, put (OStr "Exiting");; put OEndl;; exit 6).

Definition main_clauses : list clause :=
  [catch_float; catch_int; catch_const_char_ptr; catch_StudentException; catch_all].

(** The [try] block of [main] around a body. *)
Definition main_try (body : M unit) : M unit := try_catch body main_clauses.

Definition AppSpecificTerminate : M unit :=
  put (OStr "Uncaught exception. Program terminating");; put OEndl;; exit 1.

(** [main], for any student in place of [s1]. *)
Definition main_with (construct_s1 : M addr) : M Z :=
  set_terminate UseAppSpecificTerminate;;
  s1 ← construct_s1;
  main_try (Student_Graduate s1);;
  put (OStr "Moving onward with remainder of code.");; put OEndl;;
  Student_destroy s1;;
  mret 0.

Definition main : M Z :=
  main_with (Student_Student_alt "Ling" "Mau" "I" "Ms." (Float.double_to_float lit_3_1) "C++" "55UD").

(** ** The process *)

Inductive outcome :=
  | Exited (status : Z) (w : world)
  | Aborted (w : world)
  | UndefinedBehaviour.

(** [std::terminate()]: calls the registered handler; the default one, and
    a handler that comes back, abort. *)
Definition std_terminate (w : world) : outcome :=
  match terminate w with
  | DefaultTerminate => Aborted w
  | UseAppSpecificTerminate =>
      match AppSpecificTerminate w with
      | Exit status w' => Exited status w'
      | Ret _ w' | Throw _ w' => Aborted w'
      | Undef => UndefinedBehaviour
      end
  end.

(** A program from its start to its end; an exception that leaves it
    reaches [std::terminate]. *)
Definition run_program (prog : M Z) : outcome :=
  match prog initial_world with
  | Ret status w | Exit status w => Exited status w
  | Throw _ w => std_terminate w
  | Undef => UndefinedBehaviour
  end.

Definition exit_status (o : outcome) : option Z :=
  match o with
  | Exited status _ => Some status
  | _ => None
  end.

(** ** Calls from outside the class *)

(** What a member function gives back. *)
Inductive value :=
  | VVoid
  | VBool (b : bool)
  | VChar (c : ascii)
  | VString (s : string)
  | VFloat (f : spec_float).

(** The non-static member functions a [Student] object has, its own and
    the inherited ones. *)
Inductive method :=
  | MModifyTitle (newTitle : string)
  | MGetFirstName
  | MGetLastName
  | MGetTitle
  | MGetMiddleInitial
  | MPersonPrint
  | MPersonIsA
  | MGreeting (msg : string)
  | MEarnPhD
  | MTakePrerequisites
  | MGetGpa
  | MGetCurrentCourse
  | MGetStudentId
  | MSetCurrentCourse (c : string)
  | MPrint
  | MIsA
  | MValidate
  | MGraduate.

Definition void (c : M unit) : M value := _ ← c; mret VVoid.

Definition call (m : method) (a : addr) : M value :=
  match m with
  | MModifyTitle t => void (Person_ModifyTitle t a)
  | MGetFirstName => x ← Person_GetFirstName a; mret (VString x)
  | MGetLastName => x ← Person_GetLastName a; mret (VString x)
  | MGetTitle => x ← Person_GetTitle a; mret (VString x)
  | MGetMiddleInitial => x ← Person_GetMiddleInitial a; mret (VChar x)
  | MPersonPrint => void (Person_Print a)
  | MPersonIsA => void (Person_IsA a)
  | MGreeting msg => void (Person_Greeting msg a)
  | MEarnPhD => void (Student_EarnPhD a)
  | MTakePrerequisites => x ← Student_TakePrerequisites a; mret (VBool x)
  | MGetGpa => x ← Student_GetGpa a; mret (VFloat x)
  | MGetCurrentCourse => x ← Student_GetCurrentCourse a; mret (VString x)
  | MGetStudentId => x ← Student_GetStudentId a; mret (VString x)
  | MSetCurrentCourse c => void (Student_SetCurrentCourse c a)
  | MPrint => void (Student_Print a)
  | MIsA => void (Student_IsA a)
  | MValidate => void (Student_Validate a)
  | MGraduate => void (Student_Graduate a)
  end.

(** One step of a client of the class: an object is constructed or
    destroyed, or a member function is called inside
    [try { ... } catch (...) { }]. *)
Inductive op :=
  | New
  | NewAlt (fn ln : string) (mi : ascii) (t : string) (avg : spec_float) (course id : string)
  | NewCopy (src : addr)
  | Destroy (a : addr)
  | Call (m : method) (a : addr).

Definition swallow : clause := mkClause CatchAll (λ _, mret tt).

Definition do_op (o : op) : M unit :=
  match o with
  | New => _ ← Student_Student; mret tt
  | NewAlt fn ln mi t avg course id => _ ← Student_Student_alt fn ln mi t avg course id; mret tt
  | NewCopy src => _ ← Student_Student_copy src; mret tt
  | Destroy a => Student_destroy a
  | Call m a => try_catch (_ ← call m a; mret tt) [swallow]
  end.

(** The state after a step; [None] when the step is undefined. *)
Definition step (o : op) (w : world) : option world :=
  match do_op o w with
  | Ret _ w' => Some w'
  | _ => None
  end.

Fixpoint run (ops : list op) (w : world) : option world :=
  match ops with
  | [] => Some w
  | o :: ops' =>
      match step o w with
      | Some w' => run ops' w'
      | None => None
      end
  end.

Definition is_construction (o : op) : bool :=
  match o with
  | New | NewAlt _ _ _ _ _ _ _ | NewCopy _ => true
  | _ => false
  end.

Definition is_destruction (o : op) : bool :=
  match o with
  | Destroy _ => true
  | _ => false
  end.

Definition constructions (ops : list op) : Z :=
  Z.of_nat (length (filter (λ o, is_construction o = true) ops)).

Definition destructions (ops : list op) : Z :=
  Z.of_nat (length (filter (λ o, is_destruction o = true) ops)).

(** The number of [Student] objects alive. *)
Definition live (w : world) : Z := Z.of_nat (size (objects w)).

(** A call repeated [n] times; the values it gave back. *)
Fixpoint repeat_call {A} (n : nat) (c : M A) : M (list A) :=
  match n with
  | O => mret []
  | S k => x ← c; xs ← repeat_call k c; mret (x :: xs)
  end.


(** ** Definitions for the statements *)

(** What a member function leaves as it was: the counter, how many objects
    are alive, and the identifier of each of them. *)
Record unchanged (w w' : world) : Prop := {
  unchanged_numStudents : numStudents w' = numStudents w;
  unchanged_size : size (objects w') = size (objects w);
  unchanged_ids : ∀ a s, objects w !! a = Some s →
                    ∃ s', objects w' !! a = Some s' ∧ studentId s' = studentId s
}.

(** A new object with the value [s]: stored at a fresh address, then the
    counter goes up by one. The three constructors end this way. *)
Definition constructed (s : Student) (w : world) : result addr :=
  let a := fresh (dom (objects w)) in
  match Int.add (numStudents w) 1 with
  | Some n => Ret a (mkWorld n (<[a := s]> (objects w)) (freestore w) (cout w) (terminate w))
  | None => Undef
  end.

Definition up (o : op) : Z := if is_construction o then 1 else 0.
Definition down (o : op) : Z := if is_destruction o then 1 else 0.

(** A state in which the counter is the number of live objects. *)
Definition consistent (w : world) : Prop := numStudents w = live w.

(** The object a step works on. *)
Definition operand (o : op) : option addr :=
  match o with
  | NewCopy a | Destroy a | Call _ a => Some a
  | _ => None
  end.

(** The object at [a] is destroyed by none of the steps. *)
Definition destroys (a : addr) (o : op) : bool :=
  match o with
  | Destroy b => Nat.eqb a b
  | _ => false
  end.

Definition outlives (a : addr) (ops : list op) : bool :=
  forallb (λ o, negb (destroys a o)) ops.

(** The handler chosen for an exception, by its place in the list. *)
Definition handled_by (e : exn) (clauses : list clause) : option nat :=
  fst <$> list_find (accepts e) clauses.

Definition status_of {A} (r : result A) : option Z :=
  match r with
  | Exit status _ => Some status
  | _ => None
  end.

(** A program that registers the handler and lets an exception escape. *)
Definition escapes (e : exn) : M Z :=
  set_terminate UseAppSpecificTerminate;; throw e.

(** ** States and runs to evaluate on *)

Definition lit_1_5 : spec_float := Float.double_literal 15 10.  (* 1.5 *)

(** [s1] of [main], with a gpa of [avg]. *)
Definition Ling (avg : spec_float) : Student :=
  mkStudent (Person_Person "Ling" "Mau" "I" "Ms.") avg "C++" "55UD".

(** The state after [s1] is constructed in the initial state; it lives at
    address 0. *)
Definition world_of_Ling (avg : spec_float) : world :=
  match Student_Student_alt "Ling" "Mau" "I" "Ms." avg "C++" "55UD" initial_world with
  | Ret _ w => w
  | _ => initial_world
  end.

Definition gpa_3_1 : spec_float := Float.double_to_float lit_3_1.
Definition gpa_1_5 : spec_float := Float.double_to_float lit_1_5.

(** Three constructions, one of each kind, then the three destructions in
    another order. *)
Definition demo_ops : list op :=
  [New; NewAlt "Ling" "Mau" "I" "Ms." gpa_3_1 "C++" "55UD";
   NewCopy 0%nat; Destroy 1%nat; Destroy 0%nat; Destroy 2%nat].

Definition demo_final : world := mkWorld 0 ∅ [] [] DefaultTerminate.

(** Calls that assign to the object and calls that throw, a default
    construction, a copy, the destruction of another object. *)
Definition busy_ops : list op :=
  [Call MEarnPhD 0%nat; Call (MSetCurrentCourse "Rocq") 0%nat; Call MGraduate 0%nat;
   Call MValidate 0%nat; New; NewCopy 0%nat; Destroy 1%nat; Call MPrint 0%nat].

Definition busy_final : world :=
  default initial_world (run busy_ops (world_of_Ling gpa_3_1)).

Definition after_default (w : world) : world :=
  match Student_Student w with
  | Ret _ w' => w'
  | _ => w
  end.

Definition after_copy (src : addr) (w : world) : world :=
  match Student_Student_copy src w with
  | Ret _ w' => w'
  | _ => w
  end.

(** ** Definitions for further properties *)

(** The members no member function assigns: the names, the middle initial,
    the gpa and the identifier. Only [title] and [currentCourse] have a
    function that writes them. *)
Definition fixed_members (s : Student) : string * string * ascii * spec_float * string :=
  (firstName (person s), lastName (person s), middleInitial (person s), gpa s, studentId s).

(** The member functions declared [const] in the source. *)
Definition is_const (m : method) : bool :=
  match m with
  | MGetFirstName | MGetLastName | MGetTitle | MGetMiddleInitial
  | MPersonPrint | MPersonIsA | MGreeting _
  | MGetGpa | MGetCurrentCourse | MGetStudentId | MPrint | MIsA => true
  | _ => false
  end.

(** What a call on the object at [a] can do to the state: write to that
    object, but not to its [fixed_members]; leave [StudentException]s of
    number 5 on the free store; print. *)
Record effect_of_call (a : addr) (w w' : world) : Prop := {
  effect_numStudents : numStudents w' = numStudents w;
  effect_terminate : terminate w' = terminate w;
  effect_others : ∀ b, b ≠ a → objects w' !! b = objects w !! b;
  effect_self : ∀ s, objects w !! a = Some s →
                  ∃ s', objects w' !! a = Some s' ∧ fixed_members s' = fixed_members s;
  effect_freestore : ∃ extra, freestore w' = freestore w ++ extra
                              ∧ Forall (λ x, number x = 5) extra;
  effect_cout : ∃ out, cout w' = cout w ++ out
}.


(** The exception [Graduate] throws for a student. *)
Definition Graduate_exn (s : Student) : exn :=
  if Float.lt (Float.float_to_double (gpa s)) lit_2_0
  then EFloat (gpa s)
  else EStudentException (mkStudentException 5).

(** A client that constructs two students, destroys the first and
    constructs a third: [Student a1; Student a2; a1.~Student(); Student a3;]
    with the first in a scope of its own. *)
Definition reuse_scenario : M (addr * addr) :=
  a1 ← Student_Student;
  a2 ← Student_Student;
  Student_destroy a1;;
  a3 ← Student_Student;
  mret (a2, a3).

(** The state with one field replaced. *)
Definition with_cout (out : list out_item) (w : world) : world :=
  mkWorld (numStudents w) (objects w) (freestore w) out (terminate w).

Definition after_reuse : world :=
  match reuse_scenario initial_world with
  | Ret _ w' => w'
  | _ => initial_world
  end.

(** * Chp9-Ex2: two base classes with a common ancestor

    [Chapter09/Chp9-Ex2.cpp]: a [Centaur] is a [Person] and a [Horse], and
    each of the two is a [LifeForm]; inheritance is not virtual, so a
    [Centaur] holds two [LifeForm] sub-objects. The member functions do not
    change any state; [Print] and [main] are given by what they insert into
    [cout]. *)

Module Chp9_Ex2.

(** [class LifeForm] *)
Record LifeForm := mkLifeForm { lifeExpectancy : Z }.

Definition LifeForm_default : LifeForm := mkLifeForm 0.
Definition LifeForm_LifeForm (life : Z) : LifeForm := mkLifeForm life.
Definition LifeForm_copy (form : LifeForm) : LifeForm := mkLifeForm (lifeExpectancy form).
Definition GetLifeExpectancy (this : LifeForm) : Z := lifeExpectancy this.

(** [class Horse : public LifeForm] *)
Definition HORSE_LIFE : Z := 35.

Record Horse := mkHorse {
  Horse_base : LifeForm;
  name : string
}.

Definition Horse_default : Horse := mkHorse (LifeForm_LifeForm HORSE_LIFE) EmptyString.
Definition Horse_Horse (n : string) : Horse := mkHorse (LifeForm_LifeForm HORSE_LIFE) n.
Definition Horse_copy (h : Horse) : Horse := mkHorse (LifeForm_copy (Horse_base h)) (name h).
Definition GetName (this : Horse) : string := name this.

Definition Horse_Print (this : Horse) : list out_item := [OStr (name this); OEndl].
Definition Horse_IsA (this : Horse) : string := "Horse".
Definition Horse_Speak (this : Horse) : string := "Neigh!".

(** [class Person : public LifeForm] *)
Definition PERSON_LIFE : Z := 80.

Record Person := mkPerson {
  Person_base : LifeForm;
  firstName : string;
  lastName : string;
  middleInitial : ascii;
  title : string
}.

Definition Person_default : Person :=
  mkPerson (LifeForm_LifeForm PERSON_LIFE) EmptyString EmptyString "000"%char EmptyString.

Definition Person_Person (fn ln : string) (mi : ascii) (t : string) : Person :=
  mkPerson (LifeForm_LifeForm PERSON_LIFE) fn ln mi t.

Definition Person_copy (p : Person) : Person :=
  mkPerson (LifeForm_copy (Person_base p)) (firstName p) (lastName p) (middleInitial p) (title p).

Definition ModifyTitle (newTitle : string) (this : Person) : Person :=
  mkPerson (Person_base this) (firstName this) (lastName this) (middleInitial this) newTitle.

Definition GetFirstName (this : Person) : string := firstName this.
Definition GetLastName (this : Person) : string := lastName this.
Definition GetTitle (this : Person) : string := title this.
Definition GetMiddleInitial (this : Person) : ascii := middleInitial this.

Definition Person_Print (this : Person) : list out_item :=
  [OStr (GetTitle this); OStr " "; OStr (GetFirstName this); OStr " ";
   OChar (GetMiddleInitial this); OStr ". "; OStr (GetLastName this); OEndl].
Definition Person_IsA (this : Person) : string := "Person".
Definition Person_Speak (this : Person) : string := "Hello!".

(** [class Centaur : public Person, public Horse]: the two base
    sub-objects, in the order of the base list. *)
Record Centaur := mkCentaur {
  as_Person : Person;
  as_Horse : Horse
}.

(** [Centaur() = default] *)
Definition Centaur_default : Centaur := mkCentaur Person_default Horse_default.

(** [Centaur(fn, ln, mi, title)] *)
Definition Centaur_Centaur (fn ln : string) (mi : ascii) (t : string) : Centaur :=
  mkCentaur (Person_Person fn ln mi t) (Horse_Horse fn).

(** The same with the default arguments [' '] and ["Mythological Creature"]. *)
Definition Centaur_Centaur2 (fn ln : string) : Centaur :=
  Centaur_Centaur fn ln " "%char "Mythological Creature".

(** [Centaur(const Centaur &c) : Person(c), Horse(c)] *)
Definition Centaur_copy (c : Centaur) : Centaur :=
  mkCentaur (Person_copy (as_Person c)) (Horse_copy (as_Horse c)).

Definition Centaur_Print (this : Centaur) : list out_item :=
  [OStr "My name is "; OStr (GetFirstName (as_Person this));
   OStr ".  I am a "; OStr (GetTitle (as_Person this)); OEndl].
Definition Centaur_IsA (this : Centaur) : string := "Centaur".
Definition Centaur_Speak (this : Centaur) : string := "Neigh! and Hello!".

(** [beast.Person::GetLifeExpectancy()] and [beast.Horse::GetLifeExpectancy()] *)
Definition Person_GetLifeExpectancy (this : Centaur) : Z :=
  GetLifeExpectancy (Person_base (as_Person this)).
Definition Horse_GetLifeExpectancy (this : Centaur) : Z :=
  GetLifeExpectancy (Horse_base (as_Horse this)).

(** [main], for any [Centaur] in place of [beast]: what it prints, and the
    value it returns. *)
Definition main_with (beast : Centaur) : list out_item * Z :=
  ([OStr (Centaur_Speak beast); OStr " I'm a "; OStr (Centaur_IsA beast); OEndl;
    OStr "It is unclear how many years I will live: ";
    OInt (Person_GetLifeExpectancy beast);
    OStr " or ";
    OInt (Horse_GetLifeExpectancy beast); OEndl], 0).

Definition main : list out_item * Z := main_with (Centaur_Centaur2 "Wild" "Man").

(** The [Centaur] objects a program can make: by one of the three
    constructors, the copy constructor from one it made before. *)
Inductive made : Centaur → Prop :=
  | made_default : made Centaur_default
  | made_alt fn ln mi t : made (Centaur_Centaur fn ln mi t)
  | made_copy c : made c → made (Centaur_copy c).

End Chp9_Ex2.

(** * Properties *)

(** ** Running the definitions *)

Example lit_2_0_value : lit_2_0 = S754_finite false 4503599627370496 (-51).
Proof. vm_compute. reflexivity. Qed.

(** 3.1 as a [float] is 13002342 * 2^-22. *)
Example gpa_3_1_value : gpa_3_1 = S754_finite false 13002342 (-22).
Proof. vm_compute. reflexivity. Qed.

Example gpa_3_1_is_float : Float.is_float gpa_3_1 = true.
Proof. vm_compute. reflexivity. Qed.

Example promotion_is_double : Float.is_double (Float.float_to_double gpa_3_1) = true.
Proof. vm_compute. reflexivity. Qed.

Example promotion_is_exact : Float.float_to_double gpa_1_5 = lit_1_5.
Proof. vm_compute. reflexivity. Qed.

Example nan_not_below : Float.lt (Float.float_to_double S754_nan) lit_2_0 = false.
Proof. vm_compute. reflexivity. Qed.

Example nan_not_above : Float.ge (Float.float_to_double S754_nan) lit_2_0 = false.
Proof. vm_compute. reflexivity. Qed.

Example smallest_float_below :
  Float.lt (Float.float_to_double (S754_finite false 1 (-149))) lit_2_0 = true.
Proof. vm_compute. reflexivity. Qed.

Example two_not_below :
  Float.lt (Float.float_to_double (Float.double_to_float lit_2_0)) lit_2_0 = false.
Proof. vm_compute. reflexivity. Qed.

Example to_string_100 : Int.to_string 100 +:+ "Id" = "100Id".
Proof. vm_compute. reflexivity. Qed.

Example to_string_negative : Int.to_string (-7) = "-7".
Proof. vm_compute. reflexivity. Qed.

Example Ling_lives (avg : spec_float) :
  objects (world_of_Ling avg) !! 0%nat = Some (Ling avg)
  ∧ numStudents (world_of_Ling avg) = 1.
Proof. split; reflexivity. Qed.

(** The program as it stands: [s1] has a gpa of 3.1, [Graduate] throws the
    [StudentException], the fourth handler prints and exits with 5. *)
Example main_runs :
  ∃ w, run_program main = Exited 5 w
       ∧ cout w = [OStr "Error: "; OInt 5; OEndl]
       ∧ numStudents w = 1
       ∧ freestore w = [mkStudentException 5].
Proof. eexists. split; [vm_compute; reflexivity|]. repeat split. Qed.

(** With a gpa of 1.5 in place of 3.1 the first handler exits with 1. *)
Example main_low_gpa :
  ∃ w, run_program (main_with (Student_Student_alt "Ling" "Mau" "I" "Ms." gpa_1_5 "C++" "55UD"))
         = Exited 1 w
       ∧ cout w = [OStr "Too low gpa: "; OFloat gpa_1_5; OEndl].
Proof. eexists. split; [vm_compute; reflexivity|]. reflexivity. Qed.

Example demo_runs : run demo_ops initial_world = Some demo_final.
Proof. vm_compute. reflexivity. Qed.

Example busy_runs : run busy_ops (world_of_Ling gpa_3_1) = Some busy_final.
Proof. vm_compute. reflexivity. Qed.

(** After [busy_ops] the title and the course of [s1] have changed. *)
Example busy_changes :
  (λ s, (title (person s), currentCourse s, studentId s)) <$> objects busy_final !! 0%nat
  = Some ("Dr.", "Rocq", "55UD").
Proof. vm_compute. reflexivity. Qed.

(** ** Floating-point comparison *)

Lemma SFcompare_antisym (x y : spec_float) (c : comparison) :
  SFcompare x y = Some c → SFcompare y x = Some (CompOpp c).
Proof.
  destruct x as [sx|sx| |sx mx ex], y as [sy|sy| |sy my ey]; simpl;
    try discriminate;
    try (destruct sx; intros [= <-]; reflexivity);
    try (destruct sy; intros [= <-]; reflexivity);
    try (intros [= <-]; reflexivity).
  - destruct sx, sy; intros [= <-]; reflexivity.
  - destruct sx, sy; intros [= <-]; try reflexivity;
      rewrite (Z.compare_antisym ex ey);
      destruct (ex ?= ey); simpl; try reflexivity;
      f_equal; rewrite ?CompOpp_involutive.
    + exact (Pos.compare_cont_antisym my mx Eq).
    + symmetry. exact (Pos.compare_cont_antisym mx my Eq).
Qed.

(** [x >= y] excludes [x < y]. *)
Lemma ge_not_lt (x y : spec_float) : Float.ge x y = true → Float.lt x y = false.
Proof.
  unfold Float.ge, Float.lt, SFleb, SFltb.
  destruct (SFcompare y x) as [c|] eqn:Hc; [|discriminate].
  rewrite (SFcompare_antisym _ _ _ Hc).
  destruct c; simpl; congruence.
Qed.

(** Neither [<] nor [>=] holds only when the two do not compare: one is a
    NaN. *)
Lemma neither_is_unordered (x y : spec_float) :
  Float.lt x y = false → Float.ge x y = false → SFcompare x y = None.
Proof.
  unfold Float.ge, Float.lt, SFleb, SFltb.
  destruct (SFcompare x y) as [c|] eqn:Hc; [|reflexivity].
  rewrite (SFcompare_antisym _ _ _ Hc).
  destruct c; simpl; congruence.
Qed.

(** ** Arithmetic on [int] *)

Lemma Int_add_Some (a b n : Z) : Int.add a b = Some n → n = a + b.
Proof. unfold Int.add, Int.checked. destruct (Int.in_range _); congruence. Qed.

Lemma Int_sub_Some (a b n : Z) : Int.sub a b = Some n → n = a - b.
Proof. unfold Int.sub, Int.checked. destruct (Int.in_range _); congruence. Qed.

Lemma Int_add_defined (a b : Z) :
  Int.INT_MIN ≤ a + b ≤ Int.INT_MAX → Int.add a b = Some (a + b).
Proof.
  intros [Hlo Hhi]. unfold Int.add, Int.checked, Int.in_range.
  apply Z.leb_le in Hlo, Hhi. rewrite Hlo, Hhi. reflexivity.
Qed.

Lemma Int_sub_defined (a b : Z) :
  Int.INT_MIN ≤ a - b ≤ Int.INT_MAX → Int.sub a b = Some (a - b).
Proof.
  intros [Hlo Hhi]. unfold Int.sub, Int.checked, Int.in_range.
  apply Z.leb_le in Hlo, Hhi. rewrite Hlo, Hhi. reflexivity.
Qed.

Ltac int_bounds := unfold Int.INT_MIN, Int.INT_MAX in *; lia.

(** ** Strings *)

Lemma length_append (s t : string) :
  String.length (s +:+ t) = (String.length s + String.length t)%nat.
Proof. induction s as [|c s IH]; [done|]. simpl. by f_equal. Qed.

(** Two strings with the same suffix appended are equal only when equal. *)
Lemma append_suffix_inj (t s1 s2 : string) : s1 +:+ t = s2 +:+ t → s1 = s2.
Proof.
  revert s2. induction s1 as [|c s1 IH]; intros [|d s2] H; simpl in H.
  - reflexivity.
  - apply (f_equal String.length) in H. rewrite !length_append in H. simpl in H. lia.
  - apply (f_equal String.length) in H. rewrite !length_append in H. simpl in H. lia.
  - injection H as -> H. f_equal. by apply IH.
Qed.

Lemma to_string_Id_inj (n m : Z) :
  Int.to_string n +:+ "Id" = Int.to_string m +:+ "Id" → n = m.
Proof.
  intros H. apply append_suffix_inj in H. unfold Int.to_string in H.
  by apply (inj pretty) in H.
Qed.

(** ** The store *)

(** The address of a new object is not the address of a live one. *)
Lemma fresh_not_live (w : world) : objects w !! fresh (dom (objects w)) = None.
Proof. apply not_elem_of_dom, is_fresh. Qed.

Lemma live_is_not_fresh (w : world) (a : addr) (s : Student) :
  objects w !! a = Some s → fresh (dom (objects w)) ≠ a.
Proof. intros Ha Heq. rewrite <- Heq, fresh_not_live in Ha. discriminate. Qed.

Lemma unchanged_same_objects (w w' : world) :
  numStudents w' = numStudents w → objects w' = objects w → unchanged w w'.
Proof. intros Hn Ho. split; rewrite ?Ho; eauto. Qed.

Lemma unchanged_update (w w' : world) (a : addr) (s s' : Student) :
  numStudents w' = numStudents w →
  objects w !! a = Some s → studentId s' = studentId s →
  objects w' = <[a := s']> (objects w) → unchanged w w'.
Proof.
  intros Hn Ha Hid Ho. split; [done| |]; rewrite Ho.
  - apply map_size_insert_Some. eauto.
  - intros b t Hb. destruct (decide (a = b)) as [->|Hne].
    + rewrite lookup_insert_eq. exists s'. split; [done|]. congruence.
    + rewrite lookup_insert_ne by done. eauto.
Qed.

(** ** Constructors and destructor *)

Lemma incr_numStudents_eq (w : world) :
  incr_numStudents w =
    match Int.add (numStudents w) 1 with
    | Some n => Ret tt (mkWorld n (objects w) (freestore w) (cout w) (terminate w))
    | None => Undef
    end.
Proof.
  unfold incr_numStudents, get_numStudents, set_numStudents, int_value, undef,
    mbind, M_bind, mret, M_ret.
  destruct (Int.add _ _); reflexivity.
Qed.

Lemma decr_numStudents_eq (w : world) :
  decr_numStudents w =
    match Int.sub (numStudents w) 1 with
    | Some n => Ret tt (mkWorld n (objects w) (freestore w) (cout w) (terminate w))
    | None => Undef
    end.
Proof.
  unfold decr_numStudents, get_numStudents, set_numStudents, int_value, undef,
    mbind, M_bind, mret, M_ret.
  destruct (Int.sub _ _); reflexivity.
Qed.

Lemma alloc_then_incr (s : Student) (w : world) :
  (a ← alloc s; incr_numStudents;; mret a) w = constructed s w.
Proof.
  unfold constructed, alloc, mbind, M_bind. rewrite incr_numStudents_eq. cbn.
  destruct (Int.add _ _); reflexivity.
Qed.

Lemma Student_Student_eq (w : world) :
  Student_Student w =
    match Int.add (numStudents w) 100 with
    | Some k =>
        constructed (mkStudent Person_default (Float.double_to_float lit_0_0) EmptyString
                               (Int.to_string k +:+ "Id")) w
    | None => Undef
    end.
Proof.
  unfold Student_Student, get_numStudents, int_value, undef.
  unfold mbind at 1 2, M_bind at 1 2. cbn.
  destruct (Int.add (numStudents w) 100) as [k|]; [|reflexivity].
  unfold mret at 1, M_ret at 1. apply alloc_then_incr.
Qed.

Lemma Student_Student_alt_eq fn ln mi t avg course id (w : world) :
  Student_Student_alt fn ln mi t avg course id w =
    constructed (mkStudent (Person_Person fn ln mi t) avg course id) w.
Proof. apply alloc_then_incr. Qed.

Lemma Student_Student_copy_eq (src : addr) (w : world) :
  Student_Student_copy src w =
    match objects w !! src with
    | Some s =>
        constructed (mkStudent (Person_copy (person s)) (gpa s) (currentCourse s) (studentId s)) w
    | None => Undef
    end.
Proof.
  unfold Student_Student_copy, this. unfold mbind at 1, M_bind at 1.
  destruct (objects w !! src) as [s|]; [|reflexivity]. apply alloc_then_incr.
Qed.

Lemma Student_destroy_eq (a : addr) (w : world) :
  Student_destroy a w =
    match objects w !! a, Int.sub (numStudents w) 1 with
    | Some _, Some n =>
        Ret tt (mkWorld n (delete a (objects w)) (freestore w) (cout w) (terminate w))
    | _, _ => Undef
    end.
Proof.
  unfold Student_destroy, this, release. unfold mbind, M_bind.
  destruct (objects w !! a) as [s|]; [|reflexivity].
  rewrite decr_numStudents_eq. destruct (Int.sub _ _); reflexivity.
Qed.

Lemma constructed_Ret (s : Student) (w : world) (a : addr) (w' : world) :
  constructed s w = Ret a w' →
  a = fresh (dom (objects w))
  ∧ numStudents w' = numStudents w + 1
  ∧ objects w' = <[a := s]> (objects w)
  ∧ freestore w' = freestore w ∧ cout w' = cout w ∧ terminate w' = terminate w.
Proof.
  unfold constructed. destruct (Int.add _ _) as [n|] eqn:Hn; [|discriminate].
  apply Int_add_Some in Hn. intros [= <- <-]. cbn. repeat split; done.
Qed.

Lemma constructed_defined (s : Student) (w : world) :
  Int.INT_MIN ≤ numStudents w + 1 ≤ Int.INT_MAX →
  ∃ a w', constructed s w = Ret a w'.
Proof. intros H. unfold constructed. rewrite (Int_add_defined _ _ H). eauto. Qed.

Lemma constructed_no_throw (s : Student) (w : world) (e : exn) (w' : world) :
  constructed s w ≠ Throw e w'.
Proof. unfold constructed. destruct (Int.add _ _); discriminate. Qed.

(** [Student()] returns as long as [numStudents + 100] is an [int]. *)
Lemma Student_Student_defined (w : world) :
  Int.INT_MIN ≤ numStudents w + 1 → numStudents w + 100 ≤ Int.INT_MAX →
  ∃ a w', Student_Student w = Ret a w'.
Proof.
  intros Hlo Hhi. rewrite Student_Student_eq, Int_add_defined by int_bounds.
  apply constructed_defined. int_bounds.
Qed.

(** ** Member functions *)

Create HintDb members.

#[global] Hint Unfold call void Student_Graduate Student_Validate Student_IsA
  Student_Print Student_SetCurrentCourse Student_GetStudentId
  Student_GetCurrentCourse Student_GetGpa Student_TakePrerequisites
  Student_EarnPhD Person_Greeting Person_IsA Person_Print
  Person_GetMiddleInitial Person_GetTitle Person_GetLastName
  Person_GetFirstName Person_ModifyTitle new_StudentException throw put
  update this mbind M_bind mret M_ret : members.

(** Run a member function on the object that [H] says is alive. *)
Ltac with_live H := autounfold with members; cbn; repeat (rewrite H; cbn).

(** The same by call-by-value, for a state given by its fields: each state
    on the way is reduced to its fields before the next member function
    reads it. *)
Ltac members_on H :=
  cbv beta iota zeta delta
    [call void Student_Graduate Student_Validate Student_IsA Student_Print
     Student_SetCurrentCourse Student_GetStudentId Student_GetCurrentCourse
     Student_GetGpa Student_TakePrerequisites Student_EarnPhD Person_Greeting
     Person_IsA Person_Print Person_GetMiddleInitial Person_GetTitle
     Person_GetLastName Person_GetFirstName Person_ModifyTitle
     new_StudentException throw put update this mbind M_bind mret M_ret
     numStudents objects freestore cout terminate];
  repeat (rewrite H;
          cbv beta iota zeta delta [numStudents objects freestore cout terminate]).

(** A call on an object that is not alive is undefined. *)
Lemma call_dead (m : method) (a : addr) (w : world) :
  objects w !! a = None → call m a w = Undef.
Proof.
  destruct w as [n objs fs out th]. cbn. intros Ha.
  destruct m; members_on Ha; reflexivity.
Qed.

Lemma call_live_any (w : world) (a : addr) (s : Student) (m : method) :
  objects w !! a = Some s →
  ∃ w', unchanged w w'
        ∧ ((∃ v, call m a w = Ret v w') ∨ (∃ e, call m a w = Throw e w')).
Proof.
  destruct w as [n objs fs out th]. cbn. intros Ha.
  destruct m; members_on Ha;
    try (destruct (Float.lt _ _));
    eexists; (split; [|first [left; eexists; reflexivity | right; eexists; reflexivity]]);
    first [ apply unchanged_same_objects; reflexivity
          | eapply unchanged_update; [reflexivity | exact Ha | | reflexivity]; reflexivity ].
Qed.

Lemma const_char_ptr_any (w : world) (a : addr) (s : Student)
    (m : method) (e : exn) (w' : world) :
  objects w !! a = Some s →
  call m a w = Throw e w' → type_of e = TConstCharPtr → m = MValidate.
Proof.
  destruct w as [n objs fs out th]. cbn. intros Ha.
  destruct m; members_on Ha; try (destruct (Float.lt _ _));
    try discriminate; try reflexivity; intros [= <- <-]; discriminate.
Qed.

Section LiveStudent.

Variables (w : world) (a : addr) (s : Student).
Hypothesis Hlive : objects w !! a = Some s.

(** A call on a live object returns or throws, and leaves the state
    [unchanged]. *)
Lemma call_live (m : method) :
  ∃ w', unchanged w w'
        ∧ ((∃ v, call m a w = Ret v w') ∨ (∃ e, call m a w = Throw e w')).
Proof using Hlive. exact (call_live_any w a s m Hlive). Qed.

Lemma GetStudentId_eq : Student_GetStudentId a w = Ret (studentId s) w.
Proof using Hlive. with_live Hlive. reflexivity. Qed.

Lemma GetStudentId_repeated (n : nat) :
  repeat_call n (Student_GetStudentId a) w = Ret (replicate n (studentId s)) w.
Proof using Hlive.
  induction n as [|n IH]; [reflexivity|].
  cbn [repeat_call replicate]. unfold mbind, M_bind.
  rewrite GetStudentId_eq, IH. reflexivity.
Qed.

(** A member function that throws a [const char *] is [Validate]. *)
Lemma const_char_ptr_only_Validate (m : method) (e : exn) (w' : world) :
  call m a w = Throw e w' → type_of e = TConstCharPtr → m = MValidate.
Proof using Hlive. exact (const_char_ptr_any w a s m e w' Hlive). Qed.

(** C1. For a [Student] whose gpa is below 2.0, [Graduate] throws a
    [float], the gpa itself. Nothing else of the object or of the state is
    looked at, and the state is left as it was: no later statement of
    [Graduate] has run. *)
Theorem Graduate_low_gpa :
  Float.lt (Float.float_to_double (gpa s)) lit_2_0 = true →
  Student_Graduate a w = Throw (EFloat (gpa s)) w
  ∧ type_of (EFloat (gpa s)) = TFloat.
Proof using Hlive.
  intros Hlt. split; [|reflexivity].
  with_live Hlive. rewrite Hlt. reflexivity.
Qed.

(** C2. For a [Student] whose gpa is 2.0 or more, [Graduate] throws a
    [StudentException] whose number is 5, a copy of the one it leaves on
    the free store. Whatever the gpa, [Graduate] throws: it does not
    return. *)
Theorem Graduate_never_returns :
  (Float.ge (Float.float_to_double (gpa s)) lit_2_0 = true →
     Student_Graduate a w =
       Throw (EStudentException (mkStudentException 5))
             (mkWorld (numStudents w) (objects w)
                      (freestore w ++ [mkStudentException 5]) (cout w) (terminate w)))
  ∧ (∃ e w', Student_Graduate a w = Throw e w')
  ∧ (∀ v w', Student_Graduate a w ≠ Ret v w').
Proof using Hlive.
  repeat split.
  - intros Hge. apply ge_not_lt in Hge. with_live Hlive. rewrite Hge. reflexivity.
  - with_live Hlive. destruct (Float.lt _ _); cbn; eauto.
  - intros v w'. with_live Hlive. destruct (Float.lt _ _); discriminate.
Qed.

(** C8. [TakePrerequisites] returns [false], throws nothing and leaves
    the whole state as it was: the object, the counter, the output. *)
Theorem TakePrerequisites_false :
  Student_TakePrerequisites a w = Ret false w.
Proof using Hlive. with_live Hlive. reflexivity. Qed.

End LiveStudent.

Lemma Graduate_low_gpa_witness :
  Student_Graduate 0%nat (world_of_Ling gpa_1_5) = Throw (EFloat gpa_1_5) (world_of_Ling gpa_1_5)
  ∧ type_of (EFloat gpa_1_5) = TFloat.
Proof.
  apply (Graduate_low_gpa (world_of_Ling gpa_1_5) 0%nat (Ling gpa_1_5)).
  - reflexivity.
  - vm_compute. reflexivity.
Defined.

Lemma Graduate_never_returns_witness :
  Student_Graduate 0%nat (world_of_Ling gpa_3_1) =
    Throw (EStudentException (mkStudentException 5))
          (mkWorld 1 (objects (world_of_Ling gpa_3_1)) [mkStudentException 5] [] DefaultTerminate).
Proof.
  apply (Graduate_never_returns (world_of_Ling gpa_3_1) 0%nat (Ling gpa_3_1)).
  - reflexivity.
  - vm_compute. reflexivity.
Defined.

Lemma TakePrerequisites_false_witness :
  Student_TakePrerequisites 0%nat (world_of_Ling gpa_3_1) = Ret false (world_of_Ling gpa_3_1).
Proof.
  apply (TakePrerequisites_false (world_of_Ling gpa_3_1) 0%nat (Ling gpa_3_1)).
  reflexivity.
Defined.

(** ** Steps *)

(** Every construction ends in [constructed]. *)
Lemma construction_step (o : op) (w w' : world) :
  is_construction o = true → step o w = Some w' →
  ∃ s a, constructed s w = Ret a w'.
Proof.
  intros Hc. unfold step.
  destruct o; try discriminate; unfold do_op; unfold mbind at 1, M_bind at 1.
  - rewrite Student_Student_eq. destruct (Int.add _ 100); [|discriminate].
    destruct (constructed _ w) eqn:E; try discriminate.
    unfold mret, M_ret. intros [= <-]. eauto.
  - rewrite Student_Student_alt_eq.
    destruct (constructed _ w) eqn:E; try discriminate.
    unfold mret, M_ret. intros [= <-]. eauto.
  - rewrite Student_Student_copy_eq. destruct (objects w !! src); [|discriminate].
    destruct (constructed _ w) eqn:E; try discriminate.
    unfold mret, M_ret. intros [= <-]. eauto.
Qed.

Lemma destruction_step (a : addr) (w w' : world) :
  step (Destroy a) w = Some w' →
  is_Some (objects w !! a)
  ∧ numStudents w' = numStudents w - 1
  ∧ objects w' = delete a (objects w).
Proof.
  unfold step, do_op. rewrite Student_destroy_eq.
  destruct (objects w !! a) as [s|]; [|discriminate].
  destruct (Int.sub _ _) as [n|] eqn:Hn; [|discriminate].
  apply Int_sub_Some in Hn. intros [= <-]. cbn. eauto.
Qed.

(** A call inside [try { } catch (...) { }] goes on, whether the member
    function returned or threw. *)
Lemma call_step (m : method) (a : addr) (w w' : world) :
  step (Call m a) w = Some w' → is_Some (objects w !! a) ∧ unchanged w w'.
Proof.
  unfold step, do_op, try_catch. unfold mbind, M_bind.
  destruct (objects w !! a) as [s|] eqn:Ha.
  - destruct (call_live w a s Ha m) as (w1 & Hun & [[v Hv]|[e He]]).
    + rewrite Hv. unfold mret, M_ret. intros [= <-]. eauto.
    + rewrite He. cbn. unfold mret, M_ret. intros [= <-]. eauto.
  - rewrite (call_dead m a w Ha). discriminate.
Qed.

(** No constructor and no destructor throws, and a step lets nothing out. *)
Lemma do_op_no_throw (o : op) (w : world) (e : exn) (w' : world) :
  do_op o w ≠ Throw e w'.
Proof.
  destruct o as [| fn ln mi t avg course id | src | b | m b]; unfold do_op.
  - unfold mbind, M_bind. rewrite Student_Student_eq.
    destruct (Int.add _ 100); [|discriminate].
    unfold constructed. destruct (Int.add _ 1); discriminate.
  - unfold mbind, M_bind. rewrite Student_Student_alt_eq.
    unfold constructed. destruct (Int.add _ 1); discriminate.
  - unfold mbind, M_bind. rewrite Student_Student_copy_eq.
    destruct (objects w !! src); [|discriminate].
    unfold constructed. destruct (Int.add _ 1); discriminate.
  - rewrite Student_destroy_eq.
    destruct (objects w !! b); [|discriminate]. destruct (Int.sub _ 1); discriminate.
  - unfold try_catch, mbind, M_bind.
    destruct (call m b w); cbn; discriminate.
Qed.

(** A step is defined when its operand is alive and the counter has room. *)
Lemma step_defined (o : op) (w : world) :
  Int.INT_MIN < numStudents w → numStudents w + 100 ≤ Int.INT_MAX →
  (∀ a, operand o = Some a → is_Some (objects w !! a)) →
  is_Some (step o w).
Proof.
  intros Hlo Hhi Hop. unfold step.
  assert (Int.INT_MIN ≤ numStudents w + 1 ≤ Int.INT_MAX) as H1 by int_bounds.
  destruct o as [| fn ln mi t avg course id | src | a | m a]; unfold do_op.
  - unfold mbind, M_bind. rewrite Student_Student_eq, Int_add_defined by int_bounds.
    destruct (constructed_defined (mkStudent Person_default (Float.double_to_float lit_0_0) EmptyString
      (Int.to_string (numStudents w + 100) +:+ "Id")) w H1) as (a & w' & ->). cbn. eauto.
  - unfold mbind, M_bind. rewrite Student_Student_alt_eq.
    destruct (constructed_defined (mkStudent (Person_Person fn ln mi t) avg course id) w H1)
      as (a & w' & ->). cbn. eauto.
  - unfold mbind, M_bind. rewrite Student_Student_copy_eq.
    destruct (Hop src eq_refl) as [s ->].
    destruct (constructed_defined
      (mkStudent (Person_copy (person s)) (gpa s) (currentCourse s) (studentId s)) w H1)
      as (a & w' & ->). cbn. eauto.
  - rewrite Student_destroy_eq. destruct (Hop a eq_refl) as [s ->].
    rewrite Int_sub_defined by int_bounds. eauto.
  - destruct (Hop a eq_refl) as [s Hs]. unfold try_catch, mbind, M_bind.
    destruct (call_live w a s Hs m) as (w' & _ & [[v ->]|[e ->]]); cbn; eauto.
Qed.

(** ** Counting *)

Lemma constructions_cons (o : op) (ops : list op) :
  constructions (o :: ops) = up o + constructions ops.
Proof.
  unfold constructions, up. rewrite filter_cons.
  destruct (is_construction o); case_decide; try congruence; cbn [length]; lia.
Qed.

Lemma destructions_cons (o : op) (ops : list op) :
  destructions (o :: ops) = down o + destructions ops.
Proof.
  unfold destructions, down. rewrite filter_cons.
  destruct (is_destruction o); case_decide; try congruence; cbn [length]; lia.
Qed.

Lemma constructions_app (l1 l2 : list op) :
  constructions (l1 ++ l2) = constructions l1 + constructions l2.
Proof. unfold constructions. rewrite filter_app, length_app. lia. Qed.

Lemma destructions_app (l1 l2 : list op) :
  destructions (l1 ++ l2) = destructions l1 + destructions l2.
Proof. unfold destructions. rewrite filter_app, length_app. lia. Qed.

Lemma only_constructions (cs : list op) :
  Forall (λ o, is_construction o = true) cs →
  constructions cs = Z.of_nat (length cs) ∧ destructions cs = 0.
Proof.
  induction 1 as [|o cs Ho _ [IHc IHd]]; [done|].
  rewrite constructions_cons, destructions_cons, IHc, IHd.
  unfold up, down. rewrite Ho. destruct o; try discriminate; cbn; lia.
Qed.

Lemma only_destructions (ds : list op) :
  Forall (λ o, is_destruction o = true) ds →
  constructions ds = 0 ∧ destructions ds = Z.of_nat (length ds).
Proof.
  induction 1 as [|o ds Ho _ [IHc IHd]]; [done|].
  rewrite constructions_cons, destructions_cons, IHc, IHd.
  unfold up, down. rewrite Ho. destruct o; try discriminate; cbn; lia.
Qed.

(** One step: the counter and the number of live objects move together. *)
Lemma step_counter (o : op) (w w' : world) :
  step o w = Some w' →
  numStudents w' = numStudents w + up o - down o
  ∧ live w' = live w + up o - down o.
Proof.
  intros Hstep. unfold up, down, live.
  destruct (is_construction o) eqn:Hc.
  - destruct (construction_step o w w' Hc Hstep) as (s & a & Hs).
    apply constructed_Ret in Hs as (-> & Hn & Ho & _).
    rewrite Hn, Ho, map_size_insert_None by apply fresh_not_live.
    destruct o; try discriminate; cbn; lia.
  - destruct o; try discriminate; cbn.
    + apply destruction_step in Hstep as (Ha & Hn & Ho).
      rewrite Hn, Ho, map_size_delete_Some by done.
      apply map_size_ne_0_lookup_2 in Ha. lia.
    + apply call_step in Hstep as [_ [Hn Hsz _]]. rewrite Hn, Hsz. lia.
Qed.

Lemma run_counter (ops : list op) (w w' : world) :
  run ops w = Some w' →
  numStudents w' = numStudents w + constructions ops - destructions ops
  ∧ live w' = live w + constructions ops - destructions ops.
Proof.
  revert w. induction ops as [|o ops IH]; intros w; cbn [run].
  - intros [= <-]. unfold constructions, destructions. cbn. lia.
  - destruct (step o w) as [w1|] eqn:Hstep; [|discriminate].
    intros Hrun. apply IH in Hrun as [Hn Hl].
    apply step_counter in Hstep as [Hn1 Hl1].
    rewrite constructions_cons, destructions_cons. lia.
Qed.

Lemma initial_world_consistent : consistent initial_world.
Proof. reflexivity. Qed.

(** ** Identifiers *)

Lemma step_keeps_id (o : op) (w w' : world) (a : addr) (s : Student) :
  step o w = Some w' → destroys a o = false → objects w !! a = Some s →
  ∃ s', objects w' !! a = Some s' ∧ studentId s' = studentId s.
Proof.
  intros Hstep Hd Ha.
  destruct (is_construction o) eqn:Hc.
  - destruct (construction_step o w w' Hc Hstep) as (t & b & Ht).
    apply constructed_Ret in Ht as (-> & _ & Ho & _).
    exists s. rewrite Ho, lookup_insert_ne by eauto using live_is_not_fresh. done.
  - destruct o as [| | | b | m b]; try discriminate.
    + apply destruction_step in Hstep as (_ & _ & Ho).
      cbn in Hd. apply Nat.eqb_neq in Hd.
      exists s. rewrite Ho, lookup_delete_ne by done. done.
    + apply call_step in Hstep as [_ [_ _ Hids]]. eauto.
Qed.

Lemma run_keeps_id (ops : list op) (w w' : world) (a : addr) (s : Student) :
  run ops w = Some w' → outlives a ops = true → objects w !! a = Some s →
  ∃ s', objects w' !! a = Some s' ∧ studentId s' = studentId s.
Proof.
  revert w s. induction ops as [|o ops IH]; intros w s; cbn [run outlives forallb].
  - intros [= <-] _ Ha. eauto.
  - destruct (step o w) as [w1|] eqn:Hstep; [|discriminate].
    intros Hrun [Hd Hrest]%andb_prop Ha. apply negb_true_iff in Hd.
    destruct (step_keeps_id o w w1 a s Hstep Hd Ha) as (s1 & Ha1 & Hid1).
    destruct (IH w1 s1 Hrun Hrest Ha1) as (s' & Ha' & Hid'). exists s'. split; congruence.
Qed.

(** ** Handlers and exit status *)

(** C3. The exit status by the handler taken in [main]: 1 for a [float],
    2 for an [int], 4 for a [const char *], 5 for a [StudentException], 6
    whenever the handler taken is [catch (...)], whatever the exception; and
    1 again from [AppSpecificTerminate], which is where an exception that
    nothing catches ends. *)
Theorem exit_status_by_handler :
  (∀ f w, handled_by (EFloat f) main_clauses = Some 0%nat
          ∧ status_of (main_try (throw (EFloat f)) w) = Some 1)
  ∧ (∀ n w, handled_by (EInt n) main_clauses = Some 1%nat
            ∧ status_of (main_try (throw (EInt n)) w) = Some 2)
  ∧ (∀ s w, handled_by (ECStr s) main_clauses = Some 2%nat
            ∧ status_of (main_try (throw (ECStr s)) w) = Some 4)
  ∧ (∀ x w, handled_by (EStudentException x) main_clauses = Some 3%nat
            ∧ status_of (main_try (throw (EStudentException x)) w) = Some 5)
  ∧ (∀ e w, handled_by e main_clauses = Some 4%nat →
            status_of (main_try (throw e) w) = Some 6)
  ∧ (∀ w, status_of (AppSpecificTerminate w) = Some 1)
  ∧ (∀ e, exit_status (run_program (escapes e)) = Some 1).
Proof.
  repeat split.
  intros e w Hall. destruct e; cbv in Hall; try discriminate Hall. reflexivity.
Qed.

Lemma exit_status_by_handler_witness :
  status_of (main_try (throw (EOther "std::bad_alloc")) initial_world) = Some 6.
Proof.
  destruct exit_status_by_handler as (_ & _ & _ & _ & Hall & _).
  apply (Hall (EOther "std::bad_alloc") initial_world).
  reflexivity.
Defined.

(** C4. A [StudentException] is handled by the fourth handler of [main],
    the one declared for its type, whatever its number: the three handlers
    before it are no match, and the handler that runs is that one, not the
    [catch (...)] after it. The match is on the type of the exception: an
    [int] of the same value goes to the second handler. *)
Theorem StudentException_clause (x : StudentException) (w : world) :
  list_find (accepts (EStudentException x)) main_clauses = Some (3%nat, catch_StudentException)
  ∧ decl catch_StudentException = CatchType (type_of (EStudentException x))
  ∧ (∀ i c, main_clauses !! i = Some c → (i < 3)%nat → ¬ accepts (EStudentException x) c)
  ∧ main_try (throw (EStudentException x)) w
      = handler catch_StudentException (EStudentException x) w
  ∧ (∀ i c, main_clauses !! i = Some c → i ≠ 3%nat →
       handler c (EStudentException x) w ≠ main_try (throw (EStudentException x)) w)
  ∧ handled_by (EInt (number x)) main_clauses = Some 1%nat.
Proof.
  assert (list_find (accepts (EStudentException x)) main_clauses
          = Some (3%nat, catch_StudentException)) as Hfind by reflexivity.
  split; [exact Hfind|]. split; [reflexivity|]. split; [|split; [reflexivity|split]].
  - intros i c Hi Hlt. apply list_find_Some in Hfind as (_ & _ & Hfirst). eauto.
  - intros i c Hi Hne.
    destruct i as [|[|[|[|[|i]]]]]; cbn in Hi; try discriminate; try done;
      injection Hi as <-; discriminate.
  - reflexivity.
Qed.

Lemma StudentException_clause_witness :
  ¬ accepts (EStudentException (mkStudentException 5)) catch_int
  ∧ handler catch_all (EStudentException (mkStudentException 5)) initial_world
      ≠ main_try (throw (EStudentException (mkStudentException 5))) initial_world.
Proof.
  pose proof (StudentException_clause (mkStudentException 5) initial_world)
    as (_ & _ & Hbefore & _ & Hothers & _).
  split.
  - apply (Hbefore 1%nat catch_int); [reflexivity | lia].
  - apply (Hothers 4%nat catch_all); [reflexivity | lia].
Defined.

(** C10. [Validate] throws the string literal
    ["Student does not meet prerequisites"], a [const char *], whatever the
    object and the state, and does not return; no other member function
    throws a [const char *], and no constructor or destructor throws. *)
Theorem Validate_throws (w : world) (a : addr) (s : Student) :
  objects w !! a = Some s →
  Student_Validate a w = Throw (ECStr "Student does not meet prerequisites") w
  ∧ type_of (ECStr "Student does not meet prerequisites") = TConstCharPtr
  ∧ (∀ m e w', call m a w = Throw e w' → type_of e = TConstCharPtr → m = MValidate)
  ∧ (∀ o w1 e w', do_op o w1 ≠ Throw e w').
Proof.
  intros Ha. split; [|split; [reflexivity|split]].
  - with_live Ha. reflexivity.
  - intros m e w'. by apply (const_char_ptr_only_Validate w a s).
  - intros o w1 e w'. apply do_op_no_throw.
Qed.

Lemma Validate_throws_witness :
  Student_Validate 0%nat (world_of_Ling gpa_3_1)
    = Throw (ECStr "Student does not meet prerequisites") (world_of_Ling gpa_3_1).
Proof.
  apply (Validate_throws (world_of_Ling gpa_3_1) 0%nat (Ling gpa_3_1)).
  reflexivity.
Defined.

(** ** The population counter *)

(** C5. Along any run of constructions, destructions and calls that is
    defined, [numStudents] has gone up by one for each construction (default,
    alternate or copy) and down by one for each destruction; from a state
    where it is the number of live [Student] objects it stays so and is not
    negative; and after N constructions followed by N destructions, whatever
    the objects destroyed and their order, it is back at its first value. *)
Theorem population_counter (w0 : world) (ops : list op) (w : world) :
  run ops w0 = Some w →
  numStudents w = numStudents w0 + constructions ops - destructions ops
  ∧ (∀ o w1 w2, step o w1 = Some w2 →
       numStudents w2 = numStudents w1 + (if is_construction o then 1 else 0)
                                       - (if is_destruction o then 1 else 0))
  ∧ (consistent w0 → consistent w ∧ 0 ≤ numStudents w)
  ∧ (∀ cs ds, ops = cs ++ ds →
       Forall (λ o, is_construction o = true) cs →
       Forall (λ o, is_destruction o = true) ds →
       length cs = length ds →
       numStudents w = numStudents w0).
Proof.
  intros Hrun. destruct (run_counter ops w0 w Hrun) as [Hn Hl].
  split; [exact Hn|]. split; [|split].
  - intros o w1 w2 Hstep. apply (step_counter o w1 w2 Hstep).
  - unfold consistent. intros H0. split; [lia|]. unfold live in *. lia.
  - intros cs ds -> Hcs Hds Hlen.
    rewrite constructions_app, destructions_app in Hn.
    destruct (only_constructions cs Hcs) as [Hc1 Hd1].
    destruct (only_destructions ds Hds) as [Hc2 Hd2]. lia.
Qed.

Lemma population_counter_witness :
  run demo_ops initial_world = Some demo_final
  ∧ numStudents demo_final = numStudents initial_world
  ∧ consistent demo_final.
Proof.
  pose proof (population_counter initial_world demo_ops demo_final demo_runs)
    as (_ & _ & Hcons & Hbal).
  split; [exact demo_runs|]. split.
  - apply (Hbal (take 3 demo_ops) (drop 3 demo_ops)).
    + reflexivity.
    + repeat constructor.
    + repeat constructor.
    + reflexivity.
  - apply Hcons, initial_world_consistent.
Defined.

(** ** The student identifier *)

(** C6. Whatever is done between the construction of a [Student] and its
    destruction (member functions called on it or on others, other objects
    constructed and destroyed), the object keeps its identifier, and
    [GetStudentId] called any number of times gives that same string every
    time and changes nothing. *)
Theorem studentId_immutable (w0 : world) (a : addr) (s : Student)
    (ops : list op) (w : world) (n : nat) :
  objects w0 !! a = Some s → outlives a ops = true → run ops w0 = Some w →
  (∃ s', objects w !! a = Some s' ∧ studentId s' = studentId s)
  ∧ repeat_call n (Student_GetStudentId a) w = Ret (replicate n (studentId s)) w.
Proof.
  intros Ha Hout Hrun.
  destruct (run_keeps_id ops w0 w a s Hrun Hout Ha) as (s' & Ha' & Hid).
  split; [eauto|]. rewrite <- Hid. by apply GetStudentId_repeated.
Qed.

Lemma studentId_immutable_witness :
  repeat_call 3 (Student_GetStudentId 0%nat) busy_final
    = Ret ["55UD"; "55UD"; "55UD"] busy_final.
Proof.
  apply (studentId_immutable (world_of_Ling gpa_3_1) 0%nat (Ling gpa_3_1) busy_ops busy_final 3).
  - reflexivity.
  - reflexivity.
  - exact busy_runs.
Defined.

(** C7. [Student()] makes the identifier from [numStudents] as it is when
    the constructor starts: the decimal digits of [numStudents + 100], then
    ["Id"]; the counter goes up after that. Two default constructions that
    start at different values of the counter give different identifiers. *)
Theorem default_id_from_counter (w1 w2 : world) (a1 a2 : addr) (w1' w2' : world) :
  Student_Student w1 = Ret a1 w1' → Student_Student w2 = Ret a2 w2' →
  ∃ s1 s2,
    objects w1' !! a1 = Some s1 ∧ objects w2' !! a2 = Some s2
    ∧ studentId s1 = Int.to_string (numStudents w1 + 100) +:+ "Id"
    ∧ studentId s2 = Int.to_string (numStudents w2 + 100) +:+ "Id"
    ∧ numStudents w1' = numStudents w1 + 1
    ∧ numStudents w2' = numStudents w2 + 1
    ∧ (numStudents w1 ≠ numStudents w2 → studentId s1 ≠ studentId s2).
Proof.
  rewrite !Student_Student_eq.
  destruct (Int.add (numStudents w1) 100) as [k1|] eqn:Hk1; [|discriminate].
  destruct (Int.add (numStudents w2) 100) as [k2|] eqn:Hk2; [|discriminate].
  apply Int_add_Some in Hk1, Hk2. subst k1 k2.
  intros (-> & Hn1 & Ho1 & _)%constructed_Ret (-> & Hn2 & Ho2 & _)%constructed_Ret.
  eexists _, _. rewrite Ho1, Ho2, !lookup_insert_eq.
  repeat split; try done.
  cbn. intros Hne Heq. apply to_string_Id_inj in Heq. lia.
Qed.

Lemma default_id_from_counter_witness :
  ∃ s1 s2,
    objects (after_default initial_world) !! 0%nat = Some s1
    ∧ objects (after_default (after_default initial_world)) !! 1%nat = Some s2
    ∧ studentId s1 = "100Id" ∧ studentId s2 = "101Id" ∧ studentId s1 ≠ studentId s2.
Proof.
  destruct (default_id_from_counter initial_world (after_default initial_world)
              0%nat 1%nat (after_default initial_world)
              (after_default (after_default initial_world)))
    as (s1 & s2 & H1 & H2 & Hid1 & Hid2 & _ & _ & Hne).
  - vm_compute. reflexivity.
  - vm_compute. reflexivity.
  - exists s1, s2. repeat split; try assumption.
    apply Hne. vm_compute. discriminate.
Defined.

(** C9. The copy constructor gives the new object the identifier of its
    source, and every other member of it; the counter goes up by one. The
    source and the copy are two live objects with one identifier. *)
Theorem copy_shares_id (w : world) (src : addr) (s : Student) (a : addr) (w' : world) :
  objects w !! src = Some s → Student_Student_copy src w = Ret a w' →
  a ≠ src
  ∧ objects w' !! src = Some s
  ∧ objects w' !! a = Some s
  ∧ (∃ s', objects w' !! a = Some s' ∧ studentId s' = studentId s)
  ∧ numStudents w' = numStudents w + 1
  ∧ live w' = live w + 1.
Proof.
  intros Hsrc. rewrite Student_Student_copy_eq, Hsrc.
  intros (-> & Hn & Ho & _)%constructed_Ret.
  pose proof (live_is_not_fresh w src s Hsrc) as Hne.
  unfold live. rewrite Ho, map_size_insert_None by apply fresh_not_live.
  rewrite lookup_insert_eq, lookup_insert_ne by done.
  assert (mkStudent (Person_copy (person s)) (gpa s) (currentCourse s) (studentId s) = s)
    as -> by (destruct s as [[] ? ? ?]; reflexivity).
  repeat split; try done; try lia. eauto.
Qed.

Lemma copy_shares_id_witness :
  1%nat ≠ 0%nat
  ∧ objects (after_copy 0%nat (world_of_Ling gpa_3_1)) !! 0%nat = Some (Ling gpa_3_1)
  ∧ objects (after_copy 0%nat (world_of_Ling gpa_3_1)) !! 1%nat = Some (Ling gpa_3_1)
  ∧ (∃ s', objects (after_copy 0%nat (world_of_Ling gpa_3_1)) !! 1%nat = Some s'
           ∧ studentId s' = studentId (Ling gpa_3_1))
  ∧ numStudents (after_copy 0%nat (world_of_Ling gpa_3_1)) = numStudents (world_of_Ling gpa_3_1) + 1
  ∧ live (after_copy 0%nat (world_of_Ling gpa_3_1)) = live (world_of_Ling gpa_3_1) + 1.
Proof.
  apply (copy_shares_id (world_of_Ling gpa_3_1) 0%nat (Ling gpa_3_1) 1%nat
           (after_copy 0%nat (world_of_Ling gpa_3_1))).
  - reflexivity.
  - vm_compute. reflexivity.
Defined.

(** * Further properties *)

(** ** The program as a whole *)

Lemma Student_Graduate_eq (w : world) (a : addr) (s : Student) :
  objects w !! a = Some s →
  Student_Graduate a w =
    Throw (Graduate_exn s)
          (if Float.lt (Float.float_to_double (gpa s)) lit_2_0 then w
           else mkWorld (numStudents w) (objects w)
                        (freestore w ++ [mkStudentException 5]) (cout w) (terminate w)).
Proof.
  intros Ha. unfold Graduate_exn. with_live Ha.
  destruct (Float.lt _ _); reflexivity.
Qed.

(** X1. [main] with any arguments for the constructor of [s1]: when the gpa
    is below 2.0 it prints the gpa and exits with 1, otherwise (a NaN
    included) it prints ["Error: 5"] and exits with 5. It never reaches the
    statements after the [try] block, never returns 0, and [s1] is not
    destroyed: [numStudents] is 1 at the exit. *)
Theorem main_exit_by_gpa (fn ln : string) (mi : ascii) (t : string)
    (avg : spec_float) (course id : string) :
  run_program (main_with (Student_Student_alt fn ln mi t avg course id)) =
    if Float.lt (Float.float_to_double avg) lit_2_0
    then Exited 1 (mkWorld 1 {[ 0%nat := mkStudent (Person_Person fn ln mi t) avg course id ]}
                     [] [OStr "Too low gpa: "; OFloat avg; OEndl] UseAppSpecificTerminate)
    else Exited 5 (mkWorld 1 {[ 0%nat := mkStudent (Person_Person fn ln mi t) avg course id ]}
                     [mkStudentException 5] [OStr "Error: "; OInt 5; OEndl]
                     UseAppSpecificTerminate).
Proof.
  set (s1 := mkStudent (Person_Person fn ln mi t) avg course id).
  set (w1 := mkWorld 1 {[ 0%nat := s1 ]} [] [] UseAppSpecificTerminate).
  assert (Student_Student_alt fn ln mi t avg course id
            (mkWorld 0 ∅ [] [] UseAppSpecificTerminate) = Ret 0%nat w1) as Hctor
    by reflexivity.
  assert (objects w1 !! 0%nat = Some s1) as Hlive by reflexivity.
  unfold run_program, main_with, main_try, try_catch.
  unfold mbind at 1 2 3, M_bind at 1 2 3.
  cbn [set_terminate initial_world numStudents objects freestore cout terminate].
  rewrite Hctor, (Student_Graduate_eq w1 0%nat s1 Hlive).
  unfold Graduate_exn. cbn [gpa s1].
  destruct (Float.lt (Float.float_to_double avg) lit_2_0); reflexivity.
Qed.

(** X2. The [try] block of [main] lets no exception out, whatever its
    body: an exception of the body ends in [exit] with a status among 1, 2,
    4, 5 and 6, after printing and with the rest of the state as the body
    left it; a body that returns goes on as if there were no handlers. *)
Theorem main_try_lets_nothing_out (body : M unit) (w : world) :
  (∀ e w', main_try body w ≠ Throw e w')
  ∧ (∀ e w1, body w = Throw e w1 →
       ∃ status out, main_try body w = Exit status (with_cout (cout w1 ++ out) w1)
                     ∧ status ∈ [1; 2; 4; 5; 6])
  ∧ (∀ u w1, body w = Ret u w1 → main_try body w = Ret u w1).
Proof.
  assert (∀ e w1, body w = Throw e w1 →
       ∃ status out, main_try body w = Exit status (with_cout (cout w1 ++ out) w1)
                     ∧ status ∈ [1; 2; 4; 5; 6]) as Hcaught.
  { intros e w1 Hb. unfold main_try, try_catch. rewrite Hb.
    destruct e; cbv -[app elem_of]; rewrite <- ?app_assoc;
      eexists _, _; (split; [reflexivity|]); set_solver. }
  split; [|split; [exact Hcaught|]].
  - intros e w' H. destruct (body w) as [u w1|e1 w1|n w1|] eqn:Hb.
    + unfold main_try, try_catch in H. rewrite Hb in H. discriminate.
    + destruct (Hcaught e1 w1 eq_refl) as (st & out & Heq & _). congruence.
    + unfold main_try, try_catch in H. rewrite Hb in H. discriminate.
    + unfold main_try, try_catch in H. rewrite Hb in H. discriminate.
  - intros u w1 Hb. unfold main_try, try_catch. rewrite Hb. reflexivity.
Qed.

Lemma main_try_lets_nothing_out_witness :
  ∃ status out,
    main_try (Student_Validate 0%nat) (world_of_Ling gpa_3_1)
      = Exit status (with_cout (cout (world_of_Ling gpa_3_1) ++ out) (world_of_Ling gpa_3_1))
    ∧ status ∈ [1; 2; 4; 5; 6].
Proof.
  destruct (main_try_lets_nothing_out (Student_Validate 0%nat) (world_of_Ling gpa_3_1))
    as (_ & Hcaught & _).
  apply (Hcaught (ECStr "Student does not meet prerequisites")).
  reflexivity.
Defined.

(** ** What a call can change *)

Lemma effect_none (a : addr) (w w' : world) :
  numStudents w' = numStudents w → terminate w' = terminate w →
  objects w' = objects w →
  (∃ extra, freestore w' = freestore w ++ extra ∧ Forall (λ x, number x = 5) extra) →
  (∃ out, cout w' = cout w ++ out) →
  effect_of_call a w w'.
Proof.
  intros Hn Ht Ho Hf Hc. split; try done.
  - intros b _. by rewrite Ho.
  - intros s Hs. exists s. by rewrite Ho.
Qed.

Lemma effect_update (a : addr) (w w' : world) (s s' : Student) :
  numStudents w' = numStudents w → terminate w' = terminate w →
  objects w !! a = Some s → fixed_members s' = fixed_members s →
  objects w' = <[a := s']> (objects w) →
  freestore w' = freestore w → cout w' = cout w →
  effect_of_call a w w'.
Proof.
  intros Hn Ht Ha Hfix Ho Hf Hc. split; try done.
  - intros b Hb. rewrite Ho, lookup_insert_ne; done.
  - intros t Hs. exists s'. rewrite Ho, lookup_insert_eq. split; [done|]. congruence.
  - exists []. rewrite app_nil_r. done.
  - exists []. rewrite app_nil_r. done.
Qed.

Ltac grown :=
  first [ exists []; split; [symmetry; apply app_nil_r | constructor]
        | eexists; split; [reflexivity | repeat constructor] ].

Ltac printed :=
  first [ exists []; symmetry; apply app_nil_r
        | rewrite <- ?app_assoc; eexists; reflexivity ].

(** A call on a live object returns or throws, and its effect on the state
    is an [effect_of_call]. *)
Lemma call_effect (m : method) (a : addr) (w : world) (s : Student) :
  objects w !! a = Some s →
  ∃ w', effect_of_call a w w'
        ∧ ((∃ v, call m a w = Ret v w') ∨ (∃ e, call m a w = Throw e w')).
Proof.
  destruct w as [n objs fs out th]. cbn. intros Ha.
  destruct m; members_on Ha;
    try (destruct (Float.lt _ _));
    eexists; (split; [|first [left; eexists; reflexivity | right; eexists; reflexivity]]);
    first [ apply effect_none; cbn; [reflexivity | reflexivity | reflexivity | grown | printed]
          | eapply effect_update; [reflexivity | reflexivity | exact Ha | | reflexivity
                                  | reflexivity | reflexivity ]; reflexivity ].
Qed.

Lemma call_step_effect (m : method) (a : addr) (w w' : world) :
  step (Call m a) w = Some w' → effect_of_call a w w'.
Proof.
  unfold step, do_op, try_catch. unfold mbind, M_bind.
  destruct (objects w !! a) as [s|] eqn:Ha.
  - destruct (call_effect m a w s Ha) as (w1 & Heff & [[v Hv]|[e He]]).
    + rewrite Hv. unfold mret, M_ret. by intros [= <-].
    + rewrite He. cbn. unfold mret, M_ret. by intros [= <-].
  - rewrite (call_dead m a w Ha). discriminate.
Qed.





Lemma step_keeps_fixed (o : op) (w w' : world) (a : addr) (s : Student) :
  step o w = Some w' → destroys a o = false → objects w !! a = Some s →
  ∃ s', objects w' !! a = Some s' ∧ fixed_members s' = fixed_members s.
Proof.
  intros Hstep Hd Ha.
  destruct (is_construction o) eqn:Hc.
  - destruct (construction_step o w w' Hc Hstep) as (t & b & Ht).
    apply constructed_Ret in Ht as (-> & _ & Ho & _).
    exists s. rewrite Ho, lookup_insert_ne by eauto using live_is_not_fresh. done.
  - destruct o as [| | | b | m b]; try discriminate.
    + apply destruction_step in Hstep as (_ & _ & Ho).
      cbn in Hd. apply Nat.eqb_neq in Hd.
      exists s. rewrite Ho, lookup_delete_ne by done. done.
    + apply call_step_effect in Hstep as [_ _ Hothers Hself _ _].
      destruct (decide (b = a)) as [->|Hne]; [eauto|].
      exists s. rewrite Hothers by done. done.
Qed.

Lemma run_keeps_fixed (ops : list op) (w w' : world) (a : addr) (s : Student) :
  run ops w = Some w' → outlives a ops = true → objects w !! a = Some s →
  ∃ s', objects w' !! a = Some s' ∧ fixed_members s' = fixed_members s.
Proof.
  revert w s. induction ops as [|o ops IH]; intros w s; cbn [run outlives forallb].
  - intros [= <-] _ Ha. eauto.
  - destruct (step o w) as [w1|] eqn:Hstep; [|discriminate].
    intros Hrun [Hd Hrest]%andb_prop Ha. apply negb_true_iff in Hd.
    destruct (step_keeps_fixed o w w1 a s Hstep Hd Ha) as (s1 & Ha1 & Hid1).
    destruct (IH w1 s1 Hrun Hrest Ha1) as (s' & Ha' & Hid'). exists s'. split; congruence.
Qed.

Lemma Graduate_exn_fixed (s s' : Student) :
  fixed_members s' = fixed_members s → Graduate_exn s' = Graduate_exn s.
Proof. unfold fixed_members, Graduate_exn. intros [= _ _ _ -> _]. reflexivity. Qed.



(** X4. What [Graduate] throws for an object is the same at any time of
    its life: nothing that can be done to a [Student] changes whether it
    graduates. *)
Theorem Graduate_same_for_life (w0 : world) (a : addr) (s : Student)
    (ops : list op) (w : world) :
  objects w0 !! a = Some s → outlives a ops = true → run ops w0 = Some w →
  ∃ w1 w2, Student_Graduate a w0 = Throw (Graduate_exn s) w1
           ∧ Student_Graduate a w = Throw (Graduate_exn s) w2.
Proof.
  intros Ha Hout Hrun.
  destruct (run_keeps_fixed ops w0 w a s Hrun Hout Ha) as (s' & Ha' & Hfix).
  rewrite (Student_Graduate_eq w0 a s Ha), (Student_Graduate_eq w a s' Ha').
  rewrite (Graduate_exn_fixed s s' Hfix). eauto.
Qed.

Lemma Graduate_same_for_life_witness :
  ∃ w1 w2,
    Student_Graduate 0%nat (world_of_Ling gpa_3_1)
      = Throw (Graduate_exn (Ling gpa_3_1)) w1
    ∧ Student_Graduate 0%nat busy_final = Throw (Graduate_exn (Ling gpa_3_1)) w2.
Proof.
  apply (Graduate_same_for_life (world_of_Ling gpa_3_1) 0%nat (Ling gpa_3_1) busy_ops busy_final).
  - reflexivity.
  - reflexivity.
  - exact busy_runs.
Defined.



(** ** Member functions that read, member functions that write *)

(** X6. The member functions declared [const] (the getters, [Print],
    [IsA], [Greeting], also through [Person::]) return, throw nothing, and
    change nothing but the output. *)
Theorem const_member_functions_only_print (m : method) (a : addr) (w : world) (s : Student) :
  objects w !! a = Some s → is_const m = true →
  ∃ v out, call m a w = Ret v (with_cout (cout w ++ out) w).
Proof.
  intros Ha Hm. destruct w as [n objs fs out0 th]. cbn in Ha.
  destruct m; try discriminate; members_on Ha; unfold with_cout; cbn;
    first [ eexists _, []; rewrite app_nil_r; reflexivity
          | rewrite <- ?app_assoc; eexists _, _; reflexivity ].
Qed.

Lemma const_member_functions_only_print_witness :
  ∃ v out, call MPrint 0%nat (world_of_Ling gpa_3_1)
           = Ret v (with_cout (cout (world_of_Ling gpa_3_1) ++ out) (world_of_Ling gpa_3_1)).
Proof.
  apply (const_member_functions_only_print MPrint 0%nat (world_of_Ling gpa_3_1) (Ling gpa_3_1)).
  - reflexivity.
  - reflexivity.
Defined.

(** X7. A copy is an object of its own: a member function called on the
    copy leaves the source as it was, one called on the source leaves the
    copy as it was; in general a call changes no object but its own. *)
Theorem copy_is_independent (w : world) (src : addr) (s : Student) (a : addr) (w1 : world) :
  objects w !! src = Some s → Student_Student_copy src w = Ret a w1 →
  (∀ m w2, step (Call m a) w1 = Some w2 → objects w2 !! src = Some s)
  ∧ (∀ m w2, step (Call m src) w1 = Some w2 → objects w2 !! a = Some s)
  ∧ (∀ m b w2, step (Call m b) w1 = Some w2 →
       ∀ c, c ≠ b → objects w2 !! c = objects w1 !! c).
Proof.
  intros Hsrc. rewrite Student_Student_copy_eq, Hsrc.
  intros (-> & _ & Ho & _)%constructed_Ret.
  pose proof (live_is_not_fresh w src s Hsrc) as Hne.
  assert (mkStudent (Person_copy (person s)) (gpa s) (currentCourse s) (studentId s) = s)
    as Hs by (destruct s as [[] ? ? ?]; reflexivity).
  rewrite Hs in Ho.
  split; [|split].
  - intros m w2 [_ _ Hothers _ _ _]%call_step_effect.
    rewrite Hothers, Ho, lookup_insert_ne by done. done.
  - intros m w2 [_ _ Hothers _ _ _]%call_step_effect.
    rewrite Hothers, Ho, lookup_insert_eq by done. done.
  - intros m b w2 [_ _ Hothers _ _ _]%call_step_effect c Hc. by apply Hothers.
Qed.

Lemma copy_is_independent_witness :
  objects (default initial_world
             (step (Call MEarnPhD 1%nat) (after_copy 0%nat (world_of_Ling gpa_3_1)))) !! 0%nat
    = Some (Ling gpa_3_1).
Proof.
  destruct (copy_is_independent (world_of_Ling gpa_3_1) 0%nat (Ling gpa_3_1) 1%nat
              (after_copy 0%nat (world_of_Ling gpa_3_1))) as (H & _ & _).
  - reflexivity.
  - vm_compute. reflexivity.
  - apply (H MEarnPhD). vm_compute. reflexivity.
Defined.

(** X8. After [Student(fn, ln, mi, t, avg, course, id)] the seven getters
    give back the seven arguments, the objects that were alive are as they
    were, and [GetNumberStudents] is one more than before. *)
Theorem constructor_then_getters (fn ln : string) (mi : ascii) (t : string)
    (avg : spec_float) (course id : string) (w : world) (a : addr) (w' : world) :
  Student_Student_alt fn ln mi t avg course id w = Ret a w' →
  Person_GetFirstName a w' = Ret fn w'
  ∧ Person_GetLastName a w' = Ret ln w'
  ∧ Person_GetMiddleInitial a w' = Ret mi w'
  ∧ Person_GetTitle a w' = Ret t w'
  ∧ Student_GetGpa a w' = Ret avg w'
  ∧ Student_GetCurrentCourse a w' = Ret course w'
  ∧ Student_GetStudentId a w' = Ret id w'
  ∧ (∀ b s, objects w !! b = Some s → objects w' !! b = Some s)
  ∧ Student_GetNumberStudents w' = Ret (numStudents w + 1) w'.
Proof.
  rewrite Student_Student_alt_eq. intros (-> & Hn & Ho & _)%constructed_Ret.
  assert (objects w' !! fresh (dom (objects w))
          = Some (mkStudent (Person_Person fn ln mi t) avg course id)) as Ha
    by (rewrite Ho; apply lookup_insert_eq).
  repeat split; try (with_live Ha; reflexivity).
  - intros b s Hb. rewrite Ho, lookup_insert_ne by eauto using live_is_not_fresh. done.
  - unfold Student_GetNumberStudents, get_numStudents. by rewrite Hn.
Qed.

Lemma constructor_then_getters_witness :
  Person_GetFirstName 0%nat (world_of_Ling gpa_3_1) = Ret "Ling" (world_of_Ling gpa_3_1)
  ∧ Student_GetStudentId 0%nat (world_of_Ling gpa_3_1) = Ret "55UD" (world_of_Ling gpa_3_1).
Proof.
  destruct (constructor_then_getters "Ling" "Mau" "I" "Ms." gpa_3_1 "C++" "55UD"
              initial_world 0%nat (world_of_Ling gpa_3_1))
    as (Hfn & _ & _ & _ & _ & _ & Hid & _).
  - reflexivity.
  - exact (conj Hfn Hid).
Defined.

(** X9. [SetCurrentCourse(c)] then [GetCurrentCourse()] gives [c]; the
    other members and the other objects are as they were; of two
    [SetCurrentCourse] in a row the second one wins. *)
Theorem SetCurrentCourse_then_get (c : string) (w : world) (a : addr) (s : Student) :
  objects w !! a = Some s →
  ∃ w', Student_SetCurrentCourse c a w = Ret tt w'
        ∧ Student_GetCurrentCourse a w' = Ret c w'
        ∧ objects w' !! a = Some (mkStudent (person s) (gpa s) c (studentId s))
        ∧ (∀ b, b ≠ a → objects w' !! b = objects w !! b)
        ∧ (∀ c0, (Student_SetCurrentCourse c0 a;; Student_SetCurrentCourse c a) w
                 = Student_SetCurrentCourse c a w).
Proof.
  intros Ha. eexists. split; [with_live Ha; reflexivity|].
  split; [|split; [|split]].
  - autounfold with members. cbn. rewrite lookup_insert_eq. reflexivity.
  - cbn. apply lookup_insert_eq.
  - intros b Hb. cbn. by rewrite lookup_insert_ne.
  - intros c0. with_live Ha. repeat (rewrite lookup_insert_eq; cbn).
    by rewrite insert_insert_eq.
Qed.

Lemma SetCurrentCourse_then_get_witness :
  ∃ w', Student_SetCurrentCourse "Rocq" 0%nat (world_of_Ling gpa_3_1) = Ret tt w'
        ∧ Student_GetCurrentCourse 0%nat w' = Ret "Rocq" w'.
Proof.
  destruct (SetCurrentCourse_then_get "Rocq" (world_of_Ling gpa_3_1) 0%nat (Ling gpa_3_1))
    as (w' & Hset & Hget & _).
  - reflexivity.
  - exists w'. exact (conj Hset Hget).
Defined.

(** X10. After [EarnPhD()] the title is ["Dr."] and every other member is
    as it was; [EarnPhD] twice is [EarnPhD] once, and [EarnPhD] and
    [SetCurrentCourse] give the same state in either order. *)
Theorem EarnPhD_sets_title (w : world) (a : addr) (s : Student) :
  objects w !! a = Some s →
  ∃ w' s', Student_EarnPhD a w = Ret tt w'
           ∧ objects w' !! a = Some s'
           ∧ Person_GetTitle a w' = Ret "Dr." w'
           ∧ fixed_members s' = fixed_members s
           ∧ currentCourse s' = currentCourse s
           ∧ (Student_EarnPhD a;; Student_EarnPhD a) w = Student_EarnPhD a w
           ∧ (∀ c, (Student_EarnPhD a;; Student_SetCurrentCourse c a) w
                   = (Student_SetCurrentCourse c a;; Student_EarnPhD a) w).
Proof.
  intros Ha. eexists _, _. split; [with_live Ha; reflexivity|].
  split; [cbn; apply lookup_insert_eq|].
  split; [|split; [reflexivity|split; [reflexivity|split]]].
  - autounfold with members. cbn. rewrite lookup_insert_eq. reflexivity.
  - with_live Ha. repeat (rewrite lookup_insert_eq; cbn). by rewrite insert_insert_eq.
  - intros c. with_live Ha. repeat (rewrite lookup_insert_eq; cbn).
    by rewrite !insert_insert_eq.
Qed.

Lemma EarnPhD_sets_title_witness :
  ∃ w' s', Student_EarnPhD 0%nat (world_of_Ling gpa_3_1) = Ret tt w'
           ∧ objects w' !! 0%nat = Some s'
           ∧ Person_GetTitle 0%nat w' = Ret "Dr." w'.
Proof.
  destruct (EarnPhD_sets_title (world_of_Ling gpa_3_1) 0%nat (Ling gpa_3_1))
    as (w' & s' & H1 & H2 & H3 & _).
  - reflexivity.
  - exists w', s'. exact (conj H1 (conj H2 H3)).
Defined.

(** ** Construction and destruction *)

Lemma Student_Student_Ret (w : world) (a : addr) (w' : world) :
  Student_Student w = Ret a w' →
  a = fresh (dom (objects w))
  ∧ numStudents w' = numStudents w + 1
  ∧ objects w' = <[a := mkStudent Person_default (Float.double_to_float lit_0_0) EmptyString
                           (Int.to_string (numStudents w + 100) +:+ "Id")]> (objects w)
  ∧ freestore w' = freestore w ∧ cout w' = cout w ∧ terminate w' = terminate w.
Proof.
  rewrite Student_Student_eq.
  destruct (Int.add (numStudents w) 100) as [k|] eqn:Hk; [|discriminate].
  apply Int_add_Some in Hk as ->. apply constructed_Ret.
Qed.

Lemma Student_destroy_Ret (a : addr) (w w' : world) :
  Student_destroy a w = Ret tt w' →
  is_Some (objects w !! a)
  ∧ numStudents w' = numStudents w - 1
  ∧ objects w' = delete a (objects w).
Proof.
  rewrite Student_destroy_eq.
  destruct (objects w !! a) as [s|]; [|discriminate].
  destruct (Int.sub _ _) as [n|] eqn:Hn; [|discriminate].
  apply Int_sub_Some in Hn. intros [= <-]. cbn. eauto.
Qed.

(** X11. A default-constructed [Student] has empty names and course and a
    gpa of 0.0, so [Graduate] on it throws the [float] 0.0, and inside the
    [try] block of [main] that is exit status 1. *)
Theorem default_student_cannot_graduate (w : world) (a : addr) (w' : world) :
  Student_Student w = Ret a w' →
  objects w' !! a = Some (mkStudent Person_default (S754_zero false) EmptyString
                                    (Int.to_string (numStudents w + 100) +:+ "Id"))
  ∧ Student_Graduate a w' = Throw (EFloat (S754_zero false)) w'
  ∧ main_try (Student_Graduate a) w'
      = Exit 1 (with_cout (cout w' ++ [OStr "Too low gpa: "; OFloat (S754_zero false); OEndl]) w').
Proof.
  intros (-> & _ & Ho & _)%Student_Student_Ret.
  assert (objects w' !! fresh (dom (objects w))
          = Some (mkStudent Person_default (S754_zero false) EmptyString
                            (Int.to_string (numStudents w + 100) +:+ "Id"))) as Ha
    by (rewrite Ho; apply lookup_insert_eq).
  pose proof (Student_Graduate_eq w' _ _ Ha) as HG.
  change (Graduate_exn _) with (EFloat (S754_zero false)) in HG.
  change (Float.lt _ _) with true in HG. cbv iota in HG.
  split; [exact Ha|]. split; [exact HG|].
  unfold main_try, try_catch. rewrite HG.
  cbv -[app]. rewrite <- !app_assoc. reflexivity.
Qed.

Lemma default_student_cannot_graduate_witness :
  Student_Graduate 0%nat (after_default initial_world)
    = Throw (EFloat (S754_zero false)) (after_default initial_world).
Proof.
  destruct (default_student_cannot_graduate initial_world 0%nat (after_default initial_world))
    as (_ & H & _).
  - vm_compute. reflexivity.
  - exact H.
Defined.

(** X12. Constructing an object, by any of the three constructors, and
    then destroying it gives back the state before the construction: the
    counter, the other objects, the output. *)
Theorem construct_then_destroy (o : op) (w w1 : world) :
  Int.in_range (numStudents w) = true →
  is_construction o = true → step o w = Some w1 →
  step (Destroy (fresh (dom (objects w)))) w1 = Some w.
Proof.
  intros Hrange Hc Hstep.
  destruct (construction_step o w w1 Hc Hstep) as (s & a & Hs).
  unfold constructed in Hs.
  destruct (Int.add (numStudents w) 1) as [n|] eqn:Hn; [|discriminate].
  apply Int_add_Some in Hn as ->. injection Hs as <- <-.
  unfold step, do_op. rewrite Student_destroy_eq. cbn.
  rewrite lookup_insert_eq.
  unfold Int.sub, Int.checked. replace (numStudents w + 1 - 1) with (numStudents w) by lia.
  rewrite Hrange, delete_insert_id by apply fresh_not_live.
  destruct w. reflexivity.
Qed.

Lemma construct_then_destroy_witness :
  step (Destroy 1%nat) (after_copy 0%nat (world_of_Ling gpa_3_1))
    = Some (world_of_Ling gpa_3_1).
Proof.
  apply (construct_then_destroy (NewCopy 0%nat) (world_of_Ling gpa_3_1)
           (after_copy 0%nat (world_of_Ling gpa_3_1))).
  - reflexivity.
  - reflexivity.
  - vm_compute. reflexivity.
Defined.

(** Default constructions in a row leave the objects that were alive as
    they were, at addresses of their own. *)
Lemma defaults_in_a_row (n : nat) (w : world) (addrs : list addr) (w' : world) :
  repeat_call n Student_Student w = Ret addrs w' →
  length addrs = n
  ∧ NoDup addrs
  ∧ numStudents w' = numStudents w + Z.of_nat n
  ∧ (∀ i a, addrs !! i = Some a →
       ∃ s, objects w' !! a = Some s
            ∧ studentId s = Int.to_string (numStudents w + 100 + Z.of_nat i) +:+ "Id")
  ∧ (∀ b s, objects w !! b = Some s → (b ∉ addrs) ∧ objects w' !! b = Some s).
Proof.
  revert w addrs w'. induction n as [|n IH]; intros w addrs w'.
  - cbn. unfold mret, M_ret. intros [= <- <-].
    repeat split; try done; [constructor | lia | set_solver].
  - cbn [repeat_call]. unfold mbind, M_bind.
    destruct (Student_Student w) as [x w1| | |] eqn:Hx; try discriminate.
    destruct (repeat_call n Student_Student w1) as [xs w2| | |] eqn:Hxs; try discriminate.
    unfold mret, M_ret. intros [= <- <-].
    apply Student_Student_Ret in Hx as (Hfresh & Hn1 & Ho1 & _).
    destruct (IH w1 xs w2 Hxs) as (Hlen & Hnd & Hn2 & Hids & Hframe).
    assert (objects w1 !! x = Some (mkStudent Person_default (Float.double_to_float lit_0_0)
              EmptyString (Int.to_string (numStudents w + 100) +:+ "Id"))) as Hx1
      by (rewrite Ho1; apply lookup_insert_eq).
    destruct (Hframe x _ Hx1) as [Hxnot Hx2].
    split; [cbn; lia|]. split; [by constructor|]. split; [lia|]. split.
    + intros [|i] a Hi; cbn in Hi.
      * injection Hi as <-. eexists. split; [exact Hx2|]. cbn. do 2 f_equal. lia.
      * destruct (Hids i a Hi) as (s & Hs & Hid). exists s. split; [done|].
        rewrite Hid. do 2 f_equal. lia.
    + intros b s Hb.
      assert (x ≠ b) as Hne by (subst x; eauto using live_is_not_fresh).
      assert (objects w1 !! b = Some s) as Hb1 by (by rewrite Ho1, lookup_insert_ne).
      destruct (Hframe b s Hb1) as [Hbnot Hb2]. split; [|done].
      rewrite not_elem_of_cons. split; [congruence|done].
Qed.

(** X13. [n] default constructions in a row make [n] objects at different
    addresses with [n] different identifiers, and add [n] to the counter. *)
Theorem defaults_in_a_row_distinct (n : nat) (w : world) (addrs : list addr) (w' : world) :
  repeat_call n Student_Student w = Ret addrs w' →
  length addrs = n
  ∧ NoDup addrs
  ∧ numStudents w' = numStudents w + Z.of_nat n
  ∧ (∀ i j a b sa sb, i ≠ j →
       addrs !! i = Some a → addrs !! j = Some b →
       objects w' !! a = Some sa → objects w' !! b = Some sb →
       studentId sa ≠ studentId sb).
Proof.
  intros Hrun.
  destruct (defaults_in_a_row n w addrs w' Hrun) as (Hlen & Hnd & Hn & Hids & _).
  repeat split; try done.
  intros i j a b sa sb Hij Hi Hj Ha Hb Heq.
  destruct (Hids i a Hi) as (sa' & Ha' & Hida).
  destruct (Hids j b Hj) as (sb' & Hb' & Hidb).
  assert (sa' = sa) as -> by congruence. assert (sb' = sb) as -> by congruence.
  rewrite Hida, Hidb in Heq. apply to_string_Id_inj in Heq. lia.
Qed.

Lemma defaults_in_a_row_distinct_witness :
  ∃ addrs w', repeat_call 3 Student_Student initial_world = Ret addrs w'
              ∧ NoDup addrs ∧ numStudents w' = 3.
Proof.
  eexists _, _. split; [vm_compute; reflexivity|].
  match goal with |- NoDup ?l ∧ numStudents ?w' = _ =>
    destruct (defaults_in_a_row_distinct 3 initial_world l w') as (_ & Hnd & Hn & _)
  end.
  - vm_compute. reflexivity.
  - exact (conj Hnd Hn).
Defined.

(** X14. The identifier of [Student()] is not unique once an object has
    been destroyed: after two default constructions, the destruction of the
    first object and a third default construction, the second and the third
    object are both alive and have the same identifier. *)
Theorem identifier_reused_after_destruction (w : world) (a2 a3 : addr) (w' : world) :
  reuse_scenario w = Ret (a2, a3) w' →
  a2 ≠ a3
  ∧ ∃ s2 s3, objects w' !! a2 = Some s2 ∧ objects w' !! a3 = Some s3
             ∧ studentId s2 = Int.to_string (numStudents w + 101) +:+ "Id"
             ∧ studentId s3 = studentId s2.
Proof.
  unfold reuse_scenario, mbind, M_bind.
  destruct (Student_Student w) as [a1 w1| | |] eqn:H1; try discriminate.
  destruct (Student_Student w1) as [b2 w2| | |] eqn:H2; try discriminate.
  destruct (Student_destroy a1 w2) as [[] w3| | |] eqn:H3; try discriminate.
  destruct (Student_Student w3) as [b3 w4| | |] eqn:H4; try discriminate.
  unfold mret, M_ret. intros [= <- <- <-].
  apply Student_Student_Ret in H1 as (Ha1 & Hn1 & Ho1 & _).
  apply Student_Student_Ret in H2 as (Ha2 & Hn2 & Ho2 & _).
  apply Student_destroy_Ret in H3 as (_ & Hn3 & Ho3).
  apply Student_Student_Ret in H4 as (Ha3 & Hn4 & Ho4 & _).
  assert (is_Some (objects w1 !! a1)) as [s1 Hs1]
    by (rewrite Ho1, lookup_insert_eq; eauto).
  assert (b2 ≠ a1) as Hne21 by (subst b2; eauto using live_is_not_fresh).
  assert (objects w3 !! b2 = Some (mkStudent Person_default (Float.double_to_float lit_0_0)
            EmptyString (Int.to_string (numStudents w1 + 100) +:+ "Id"))) as Hs2.
  { rewrite Ho3, lookup_delete_ne by done. rewrite Ho2. apply lookup_insert_eq. }
  assert (b3 ≠ b2) as Hne32 by (subst b3; eauto using live_is_not_fresh).
  split; [done|]. eexists _, _.
  split; [rewrite Ho4, lookup_insert_ne by done; exact Hs2|].
  split; [rewrite Ho4; apply lookup_insert_eq|].
  cbn. split; do 2 f_equal; lia.
Qed.

Lemma identifier_reused_after_destruction_witness :
  1%nat ≠ 2%nat
  ∧ ∃ s2 s3, objects after_reuse !! 1%nat = Some s2 ∧ objects after_reuse !! 2%nat = Some s3
             ∧ studentId s2 = Int.to_string (numStudents initial_world + 101) +:+ "Id"
             ∧ studentId s3 = studentId s2.
Proof.
  apply (identifier_reused_after_destruction initial_world 1%nat 2%nat after_reuse).
  vm_compute. reflexivity.
Defined.

(** X16. Of the member functions called in the [try] block of [main], on
    any live student in any state: [Validate] ends in exit status 4 after
    printing its message, [Graduate] in 1 after printing the gpa or in 5
    after printing ["Error: 5"], and any other one gets to the end of the
    block. *)
Theorem handlers_of_member_functions (w : world) (a : addr) (s : Student) :
  objects w !! a = Some s →
  main_try (Student_Validate a) w
    = Exit 4 (with_cout (cout w ++ [OStr "Student does not meet prerequisites"; OEndl]) w)
  ∧ main_try (Student_Graduate a) w
      = (if Float.lt (Float.float_to_double (gpa s)) lit_2_0
         then Exit 1 (with_cout (cout w ++ [OStr "Too low gpa: "; OFloat (gpa s); OEndl]) w)
         else Exit 5 (mkWorld (numStudents w) (objects w)
                        (freestore w ++ [mkStudentException 5])
                        (cout w ++ [OStr "Error: "; OInt 5; OEndl]) (terminate w)))
  ∧ (∀ m, m ≠ MValidate → m ≠ MGraduate →
       ∃ w', main_try (_ ← call m a; mret tt) w = Ret tt w').
Proof.
  intros Ha. split; [|split].
  - unfold main_try, try_catch.
    assert (Student_Validate a w = Throw (ECStr "Student does not meet prerequisites") w)
      as -> by (with_live Ha; reflexivity).
    cbv -[app]. rewrite <- !app_assoc. reflexivity.
  - unfold main_try, try_catch. rewrite (Student_Graduate_eq w a s Ha).
    unfold Graduate_exn. destruct (Float.lt _ _);
      cbv -[app]; rewrite <- !app_assoc; reflexivity.
  - intros m Hv Hg. unfold main_try, try_catch. revert Ha.
    destruct w as [n objs fs out th]. cbn. intros Ha.
    destruct m; try congruence; members_on Ha; eexists; reflexivity.
Qed.

Lemma handlers_of_member_functions_witness :
  main_try (Student_Validate 0%nat) (world_of_Ling gpa_3_1)
    = Exit 4 (with_cout (cout (world_of_Ling gpa_3_1)
                         ++ [OStr "Student does not meet prerequisites"; OEndl])
                (world_of_Ling gpa_3_1)).
Proof.
  apply (handlers_of_member_functions (world_of_Ling gpa_3_1) 0%nat (Ling gpa_3_1)).
  reflexivity.
Defined.

(** ** Chp9-Ex2 *)

Example Chp9_main_runs :
  Chp9_Ex2.main =
    ([OStr "Neigh! and Hello!"; OStr " I'm a "; OStr "Centaur"; OEndl;
      OStr "It is unclear how many years I will live: "; OInt 80; OStr " or "; OInt 35; OEndl],
     0).
Proof. reflexivity. Qed.

Lemma Chp9_copy_same (c : Chp9_Ex2.Centaur) : Chp9_Ex2.Centaur_copy c = c.
Proof. destruct c as [[[] ? ? ? ?] [[] ?]]. reflexivity. Qed.

(** X15. Every [Centaur] made by its constructors, copies included, has
    two [LifeForm] sub-objects that disagree: 80 through [Person], 35
    through [Horse]; its [Horse] name is its [Person] first name; and [main]
    prints the same for it as for ["Wild" "Man"]. *)
Theorem Centaur_two_LifeForms (c : Chp9_Ex2.Centaur) :
  Chp9_Ex2.made c →
  Chp9_Ex2.Person_GetLifeExpectancy c = 80
  ∧ Chp9_Ex2.Horse_GetLifeExpectancy c = 35
  ∧ Chp9_Ex2.Person_GetLifeExpectancy c ≠ Chp9_Ex2.Horse_GetLifeExpectancy c
  ∧ Chp9_Ex2.GetName (Chp9_Ex2.as_Horse c) = Chp9_Ex2.GetFirstName (Chp9_Ex2.as_Person c)
  ∧ Chp9_Ex2.main_with c = Chp9_Ex2.main.
Proof.
  induction 1 as [| fn ln mi t | c Hc IH].
  - repeat split; done.
  - repeat split; done.
  - rewrite Chp9_copy_same. exact IH.
Qed.

Lemma Centaur_two_LifeForms_witness :
  Chp9_Ex2.Person_GetLifeExpectancy (Chp9_Ex2.Centaur_copy (Chp9_Ex2.Centaur_Centaur2 "Wild" "Man")) = 80
  ∧ Chp9_Ex2.Horse_GetLifeExpectancy (Chp9_Ex2.Centaur_copy (Chp9_Ex2.Centaur_Centaur2 "Wild" "Man")) = 35.
Proof.
  destruct (Centaur_two_LifeForms (Chp9_Ex2.Centaur_copy (Chp9_Ex2.Centaur_Centaur2 "Wild" "Man")))
    as (H80 & H35 & _).
  - apply Chp9_Ex2.made_copy, Chp9_Ex2.made_alt.
  - exact (conj H80 H35).
Defined.
